(** * hono-linebot-middleware: signature verification and interception policy

    A shallow embedding of [src/index.ts]:
    [importKeyFromChannelSecret], [validateSignature] and [lineBotMiddleware],
    together with a model of the platform primitives they call
    ([TextEncoder], [atob] behind hono's [decodeBase64], and
    [crypto.subtle.importKey] / [crypto.subtle.verify] for HMAC with SHA-256).

    Conventions.
    - A JavaScript string is represented by the bytes of its UTF-8 encoding,
      as a Rocq [string]; [TextEncoder.encode] is then the list of these
      bytes.  ASCII characters are one code unit and one byte on both sides,
      so [atob], which rejects every non-ASCII code unit, behaves the same on
      the representation.
    - A [Uint8Array] / [ArrayBuffer] is a [list byte].
    - [async] functions are run to completion: a promise is represented by
      its settlement, [Ok v] (fulfilled) or [Throw e] (rejected). *)

From Stdlib Require Import List NArith ZArith Lia ZifyNat Bool.
From Stdlib.Strings Require Import Ascii String Byte.
Import ListNotations.

Local Open Scope N_scope.

(** ** Bytes *)

Definition byte_of_N (n : N) : byte :=
  match Byte.of_N (n mod 256) with
  | Some b => b
  | None => x00
  end.

Definition bytes_of_string (s : string) : list byte := list_byte_of_string s.

Definition bytes_eqb (xs ys : list byte) : bool :=
  if list_eq_dec Byte.byte_eq_dec xs ys then true else false.

(** ** SHA-256 (FIPS 180-4) on 32-bit words carried by [N] *)

Module SHA256.

Definition mask32 : N := 0xFFFFFFFF.
Definition wrap (x : N) : N := N.land x mask32.
Definition add32 (x y : N) : N := wrap (x + y).
Definition rotr (n x : N) : N :=
  N.lor (N.shiftr x n) (wrap (N.shiftl x (32 - n))).
Definition not32 (x : N) : N := N.lxor x mask32.

Definition ch (x y z : N) := N.lxor (N.land x y) (N.land (not32 x) z).
Definition maj (x y z : N) :=
  N.lxor (N.lxor (N.land x y) (N.land x z)) (N.land y z).
Definition bsig0 x := N.lxor (N.lxor (rotr 2 x) (rotr 13 x)) (rotr 22 x).
Definition bsig1 x := N.lxor (N.lxor (rotr 6 x) (rotr 11 x)) (rotr 25 x).
Definition ssig0 x := N.lxor (N.lxor (rotr 7 x) (rotr 18 x)) (N.shiftr x 3).
Definition ssig1 x := N.lxor (N.lxor (rotr 17 x) (rotr 19 x)) (N.shiftr x 10).

Definition round_constants : list N :=
  [0x428A2F98; 0x71374491; 0xB5C0FBCF; 0xE9B5DBA5;
   0x3956C25B; 0x59F111F1; 0x923F82A4; 0xAB1C5ED5;
   0xD807AA98; 0x12835B01; 0x243185BE; 0x550C7DC3;
   0x72BE5D74; 0x80DEB1FE; 0x9BDC06A7; 0xC19BF174;
   0xE49B69C1; 0xEFBE4786; 0x0FC19DC6; 0x240CA1CC;
   0x2DE92C6F; 0x4A7484AA; 0x5CB0A9DC; 0x76F988DA;
   0x983E5152; 0xA831C66D; 0xB00327C8; 0xBF597FC7;
   0xC6E00BF3; 0xD5A79147; 0x06CA6351; 0x14292967;
   0x27B70A85; 0x2E1B2138; 0x4D2C6DFC; 0x53380D13;
   0x650A7354; 0x766A0ABB; 0x81C2C92E; 0x92722C85;
   0xA2BFE8A1; 0xA81A664B; 0xC24B8B70; 0xC76C51A3;
   0xD192E819; 0xD6990624; 0xF40E3585; 0x106AA070;
   0x19A4C116; 0x1E376C08; 0x2748774C; 0x34B0BCB5;
   0x391C0CB3; 0x4ED8AA4A; 0x5B9CCA4F; 0x682E6FF3;
   0x748F82EE; 0x78A5636F; 0x84C87814; 0x8CC70208;
   0x90BEFFFA; 0xA4506CEB; 0xBEF9A3F7; 0xC67178F2].

(** The eight working variables, also used for the running hash value. *)
Record regs := Regs { ra : N; rb : N; rc : N; rd : N;
                      re : N; rf : N; rg : N; rh : N }.

Definition initial_hash : regs :=
  Regs 0x6A09E667 0xBB67AE85 0x3C6EF372 0xA54FF53A
       0x510E527F 0x9B05688C 0x1F83D9AB 0x5BE0CD19.

(** Padding: a 1 bit, zero bits up to 56 mod 64 bytes, then the bit
    length on 64 bits, big endian. *)
Definition be_bytes (width : nat) (x : N) : list N :=
  map (fun i => N.land (N.shiftr x (8 * N.of_nat i)) 0xFF)
      (rev (seq 0 width)).

Definition pad (msg : list N) : list N :=
  let len := N.of_nat (List.length msg) in
  let zeros := (64 - (len + 9) mod 64) mod 64 in
  msg ++ [0x80] ++ repeat 0 (N.to_nat zeros) ++ be_bytes 8 (8 * len).

Fixpoint be_word (bs : list N) (acc : N) : N :=
  match bs with
  | [] => acc
  | b :: bs' => be_word bs' (N.lor (N.shiftl acc 8) b)
  end.

(** The sixteen words of a 64-byte block. *)
Fixpoint words (n : nat) (bs : list N) : list N :=
  match n with
  | O => []
  | S n' => be_word (firstn 4 bs) 0 :: words n' (skipn 4 bs)
  end.

Fixpoint blocks (n : nat) (bs : list N) : list (list N) :=
  match n with
  | O => []
  | S n' => words 16 (firstn 64 bs) :: blocks n' (skipn 64 bs)
  end.

(** Message schedule, most recent word first. *)
Fixpoint extend (n : nat) (wrev : list N) : list N :=
  match n with
  | O => wrev
  | S n' =>
      let w := add32 (add32 (ssig1 (nth 1 wrev 0)) (nth 6 wrev 0))
                     (add32 (ssig0 (nth 14 wrev 0)) (nth 15 wrev 0)) in
      extend n' (w :: wrev)
  end.

Definition schedule (block : list N) : list N :=
  rev (extend 48 (rev block)).

Definition round (r : regs) (kw : N * N) : regs :=
  let (k, w) := kw in
  let t1 := add32 (add32 (add32 (rh r) (bsig1 (re r)))
                         (add32 (ch (re r) (rf r) (rg r)) k)) w in
  let t2 := add32 (bsig0 (ra r)) (maj (ra r) (rb r) (rc r)) in
  Regs (add32 t1 t2) (ra r) (rb r) (rc r)
       (add32 (rd r) t1) (re r) (rf r) (rg r).

Definition compress (h : regs) (block : list N) : regs :=
  let r := fold_left round (combine round_constants (schedule block)) h in
  Regs (add32 (ra h) (ra r)) (add32 (rb h) (rb r))
       (add32 (rc h) (rc r)) (add32 (rd h) (rd r))
       (add32 (re h) (re r)) (add32 (rf h) (rf r))
       (add32 (rg h) (rg r)) (add32 (rh h) (rh r)).

Definition regs_words (r : regs) : list N :=
  [ra r; rb r; rc r; rd r; re r; rf r; rg r; rh r].

Definition digest (msg : list byte) : list byte :=
  let padded := pad (map Byte.to_N msg) in
  let h := fold_left compress
             (blocks (Nat.div (List.length padded) 64) padded) initial_hash in
  map byte_of_N (flat_map (be_bytes 4) (regs_words h)).

End SHA256.

(** ** HMAC (FIPS 198-1) with SHA-256 *)

Module HMAC.

Definition block_size : nat := 64.

Definition xor_with (c : N) (bs : list byte) : list byte :=
  map (fun b => byte_of_N (N.lxor (Byte.to_N b) c)) bs.

Definition block_key (key : list byte) : list byte :=
  let k := if Nat.ltb block_size (List.length key) then SHA256.digest key else key in
  k ++ repeat x00 (block_size - List.length k).

Definition mac (key msg : list byte) : list byte :=
  let k0 := block_key key in
  SHA256.digest (xor_with 0x5C k0 ++ SHA256.digest (xor_with 0x36 k0 ++ msg)).

End HMAC.

Definition hex_digit (n : N) : ascii :=
  ascii_of_N (if n <? 10 then 48 + n else 87 + n).

Fixpoint hex_of_bytes (bs : list byte) : string :=
  match bs with
  | [] => EmptyString
  | b :: bs' =>
      String (hex_digit (Byte.to_N b / 16))
        (String (hex_digit (Byte.to_N b mod 16)) (hex_of_bytes bs'))
  end.


(** ** Base64

    [encode] is the standard encoding of RFC 4648 (section 4, with padding),
    what [btoa] computes.  [forgiving_decode] is the "forgiving-base64
    decode" of the WHATWG Infra standard, the algorithm behind [atob]:
    ASCII whitespace is dropped, one or two trailing [=] are dropped when
    the length is a multiple of four, a length of 1 modulo 4 or a character
    outside the alphabet is a failure, and trailing bits are discarded. *)

Module Base64.

Local Open Scope bool_scope.

Definition sextet_of_char (c : ascii) : option N :=
  let n := N_of_ascii c in
  if (65 <=? n) && (n <=? 90) then Some (n - 65)
  else if (97 <=? n) && (n <=? 122) then Some (n - 71)
  else if (48 <=? n) && (n <=? 57) then Some (n + 4)
  else if n =? 43 then Some 62
  else if n =? 47 then Some 63
  else None.

Definition char_of_sextet (s : N) : ascii :=
  ascii_of_N (if s <? 26 then s + 65
              else if s <? 52 then s + 71
              else if s <? 62 then s - 4
              else if s =? 62 then 43 else 47).

Definition in_alphabet (c : ascii) : bool :=
  match sextet_of_char c with Some _ => true | None => false end.

Definition pad_char : ascii := "="%char.

(** U+0009 TAB, U+000A LF, U+000C FF, U+000D CR, U+0020 SPACE. *)
Definition is_ascii_whitespace (c : ascii) : bool :=
  let n := N_of_ascii c in
  (n =? 9) || (n =? 10) || (n =? 12) || (n =? 13) || (n =? 32).

Definition strip_whitespace (cs : list ascii) : list ascii :=
  filter (fun c => negb (is_ascii_whitespace c)) cs.

(** "If data's length divides by 4 leaving no remainder, then: if data
    ends with one or two U+003D (=), remove them." *)
Definition strip_padding (cs : list ascii) : list ascii :=
  if Nat.eqb (Nat.modulo (List.length cs) 4) 0 then
    match rev cs with
    | p1 :: p2 :: r =>
        if Ascii.eqb p1 pad_char
        then if Ascii.eqb p2 pad_char then rev r else rev (p2 :: r)
        else cs
    | _ => cs
    end
  else cs.

Fixpoint sextets (cs : list ascii) : option (list N) :=
  match cs with
  | [] => Some []
  | c :: cs' =>
      match sextet_of_char c, sextets cs' with
      | Some s, Some ss => Some (s :: ss)
      | _, _ => None
      end
  end.

(** Four sextets give three octets; a remainder of two sextets gives one
    octet (four bits discarded), of three sextets two octets (two bits
    discarded). *)
Fixpoint decode_sextets (ss : list N) : list N :=
  match ss with
  | a :: b :: c :: d :: rest =>
      (a * 4 + b / 16) :: ((b mod 16) * 16 + c / 4) :: ((c mod 4) * 64 + d)
        :: decode_sextets rest
  | [a; b; c] => [a * 4 + b / 16; (b mod 16) * 16 + c / 4]
  | [a; b] => [a * 4 + b / 16]
  | _ => []
  end.

Definition forgiving_decode (data : string) : option (list byte) :=
  let cs := strip_padding (strip_whitespace (list_ascii_of_string data)) in
  if Nat.eqb (Nat.modulo (List.length cs) 4) 1 then None
  else match sextets cs with
       | None => None
       | Some ss => Some (map byte_of_N (decode_sextets ss))
       end.

Fixpoint encode_sextets (bs : list N) : list N :=
  match bs with
  | x :: y :: z :: rest =>
      (x / 4) :: ((x mod 4) * 16 + y / 16) :: ((y mod 16) * 4 + z / 64)
        :: (z mod 64) :: encode_sextets rest
  | [x; y] => [x / 4; (x mod 4) * 16 + y / 16; (y mod 16) * 4]
  | [x] => [x / 4; (x mod 4) * 16]
  | [] => []
  end.

Definition padding (n : nat) : list ascii :=
  repeat pad_char (Nat.modulo (3 - Nat.modulo n 3) 3).

Definition encode (bs : list byte) : string :=
  string_of_list_ascii
    (map char_of_sextet (encode_sextets (map Byte.to_N bs))
       ++ padding (List.length bs)).

(** Well-formed standard Base64 in the words of the specification, "RFC
    4648 alphabet with padding": a multiple of four characters, all of the
    alphabet, except that the last one or two may be [=]. *)
Definition rfc4648_wellformed (s : string) : bool :=
  let cs := list_ascii_of_string s in
  Nat.eqb (Nat.modulo (List.length cs) 4) 0 &&
  match rev cs with
  | p1 :: p2 :: r =>
      if Ascii.eqb p1 pad_char
      then (if Ascii.eqb p2 pad_char then true else in_alphabet p2)
           && forallb in_alphabet r
      else forallb in_alphabet (p1 :: p2 :: r)
  | r => forallb in_alphabet r
  end.

End Base64.

(** ** Values, exceptions and effects *)

Local Open Scope string_scope.

(** The values [lineBotMiddleware] can receive for [channelSecret] once the
    TypeScript annotation is erased (the test suite passes [null]). *)
Inductive JSValue :=
| JSUndefined
| JSNull
| JSBoolean (b : bool)
| JSNumber (n : Z)
| JSString (s : string)
| JSObject.

Definition typeof (v : JSValue) : string :=
  match v with
  | JSUndefined => "undefined"
  | JSNull => "object"
  | JSBoolean _ => "boolean"
  | JSNumber _ => "number"
  | JSString _ => "string"
  | JSObject => "object"
  end.

(** What the module itself throws ([Error], [HTTPException]), what the
    platform throws ([DOMException], by name), and what a collaborator
    (the body stream, the downstream continuation) throws, kept apart as
    [Foreign] with its reason. *)
Inductive Exn :=
| Error (message : string)
| HTTPException (status : N) (message : string)
| DOMException (name : string)
| Foreign (reason : string).

Inductive Result (A : Type) :=
| Ok (a : A)
| Throw (e : Exn).
Arguments Ok {A} a.
Arguments Throw {A} e.

(** Settlement of a promise owned by a collaborator. *)
Inductive Settled (A : Type) :=
| Fulfilled (a : A)
| Rejected (reason : string).
Arguments Fulfilled {A} a.
Arguments Rejected {A} reason.

(** An HMAC key for SHA-256 with the single usage ["verify"], not
    extractable: the only kind of [CryptoKey] this module creates. *)
Record CryptoKey := { key_data : list byte }.

(** Calls that leave the module, in the order they are made. *)
Inductive Event :=
| EvImportKey (keyData : list byte)
| EvDecodeBase64 (str : string)
| EvVerify (key : CryptoKey) (signature data : list byte) (result : bool)
| EvHeader (name : string)
| EvArrayBuffer
| EvNext.

Definition is_import (e : Event) : bool :=
  match e with EvImportKey _ => true | _ => false end.
Definition is_next (e : Event) : bool :=
  match e with EvNext => true | _ => false end.
Definition is_array_buffer (e : Event) : bool :=
  match e with EvArrayBuffer => true | _ => false end.
Definition is_decode (e : Event) : bool :=
  match e with EvDecodeBase64 _ => true | _ => false end.
Definition is_verify (e : Event) : bool :=
  match e with EvVerify _ _ _ _ => true | _ => false end.

Definition count (p : Event -> bool) (tr : list Event) : nat :=
  List.length (filter p tr).

(** [c.req] as the handler uses it: [header] is [undefined] ([None]) when
    the header is absent, [arrayBuffer] is the settlement of the body read. *)
Record HonoRequest := {
  header : string -> option string;
  arrayBuffer : Settled (list byte)
}.

Section Middleware.

(** The state the downstream stages own (the response under
    construction, whatever the application keeps). *)
Variable App : Type.

Record World := { events : list Event; app : App }.

Definition M (A : Type) : Type := World -> Result A * World.

Definition ret {A} (a : A) : M A := fun w => (Ok a, w).
Definition throw {A} (e : Exn) : M A := fun w => (Throw e, w).
Definition bind {A B} (m : M A) (k : A -> M B) : M B :=
  fun w => match m w with
           | (Ok a, w') => k a w'
           | (Throw e, w') => (Throw e, w')
           end.
Definition emit (e : Event) : M unit :=
  fun w => (Ok tt, {| events := events w ++ [e]; app := app w |}).

Notation "x <- m ;; k" := (bind m (fun x => k))
  (at level 61, m at next level, right associativity).
Notation "m ;;; k" := (bind m (fun _ => k))
  (at level 61, right associativity).

(** A promise created by calling an [async] function without awaiting
    it: the callee runs, its outcome is captured, the caller goes on. *)
Definition Promise (A : Type) : Type := Result A.
Definition start {A} (m : M A) : M (Promise A) :=
  fun w => let (r, w') := m w in (Ok r, w').
Definition await {A} (p : Promise A) : M A := fun w => (p, w).

(** *** Platform *)

(** [new TextEncoder().encode(s)]. *)
Definition TextEncoder_encode (s : string) : list byte := bytes_of_string s.

(** [crypto.subtle.importKey("raw", keyData, {name: "HMAC", hash:
    {name: "SHA-256"}}, false, ["verify"])].  Web Cryptography API, HMAC,
    import key: "If length is zero then throw a DataError". *)
Definition subtle_importKey (keyData : list byte) : M CryptoKey :=
  emit (EvImportKey keyData) ;;;
  match keyData with
  | [] => throw (DOMException "DataError")
  | _ :: _ => ret {| key_data := keyData |}
  end.

(** [crypto.subtle.verify("HMAC", key, signature, data)].  Web
    Cryptography API, HMAC, verify: "Return true if mac is equal to
    signature and false otherwise". *)
Definition subtle_verify (key : CryptoKey) (signature data : list byte)
  : M bool :=
  let result := bytes_eqb (HMAC.mac (key_data key) data) signature in
  emit (EvVerify key signature data result) ;;;
  ret result.

(** [decodeBase64] of [hono/utils/encode]: the code units of [atob(str)]
    copied into a [Uint8Array]; [atob] throws an [InvalidCharacterError]
    [DOMException] when forgiving-base64 decoding fails. *)
Definition decodeBase64 (str : string) : M (list byte) :=
  emit (EvDecodeBase64 str) ;;;
  match Base64.forgiving_decode str with
  | Some bytes => ret bytes
  | None => throw (DOMException "InvalidCharacterError")
  end.

(** [c.req.header(name)] and [c.req.arrayBuffer()]. *)
Definition req_header (c : HonoRequest) (name : string) : M (option string) :=
  emit (EvHeader name) ;;; ret (header c name).

Definition req_arrayBuffer (c : HonoRequest) : M (list byte) :=
  emit EvArrayBuffer ;;;
  match arrayBuffer c with
  | Fulfilled body => ret body
  | Rejected reason => throw (Foreign reason)
  end.

(** The downstream continuation: it acts on the downstream state only. *)
Definition Next : Type := App -> Settled unit * App.

Definition call_next (next : Next) : M unit :=
  emit EvNext ;;;
  fun w => match next (app w) with
           | (Fulfilled _, a) => (Ok tt, {| events := events w; app := a |})
           | (Rejected reason, a) =>
               (Throw (Foreign reason), {| events := events w; app := a |})
           end.

(** *** The module *)

Definition importKeyFromChannelSecret (channelSecret : string) : M CryptoKey :=
  let keyBytes := TextEncoder_encode channelSecret in
  cryptoKey <- subtle_importKey keyBytes ;;
  ret cryptoKey.

Definition validateSignature (body : list byte) (key : CryptoKey)
    (signature : string) : M bool :=
  signatureBytes <- decodeBase64 signature ;;
  subtle_verify key signatureBytes body.

(** [!signature] for [signature : string | undefined]. *)
Definition falsy (signature : option string) : bool :=
  match signature with
  | None => true
  | Some s => String.eqb s EmptyString
  end.

Definition MiddlewareHandler : Type := HonoRequest -> Next -> M unit.

(** The closure [async (c, next) => ...] with its captured [cryptoKey]. *)
Definition handler (cryptoKey : Promise CryptoKey) : MiddlewareHandler :=
  fun c next =>
    signature <- req_header c "x-line-signature" ;;
    if falsy signature then throw (HTTPException 401 "no signature")
    else
      match signature with
      | None => throw (HTTPException 401 "no signature") (* not reached *)
      | Some sgn =>
          body <- req_arrayBuffer c ;;
          key <- await cryptoKey ;;
          isValid <- validateSignature body key sgn ;;
          if negb isValid
          then throw (HTTPException 401 "signature validation failed")
          else call_next next
      end.

Definition lineBotMiddleware (channelSecret : JSValue) : M MiddlewareHandler :=
  if negb (String.eqb (typeof channelSecret) "string")
  then throw (Error "no channel secret")
  else
    match channelSecret with
    | JSString secret =>
        cryptoKey <- start (importKeyFromChannelSecret secret) ;;
        ret (handler cryptoKey)
    | _ => throw (Error "no channel secret") (* not reached *)
    end.

(** The framework hands each request, with its continuation, to the
    interceptor; a request that fails does not stop the next one. *)
Fixpoint serve (h : MiddlewareHandler) (rs : list (HonoRequest * Next))
    (w : World) : list (Result unit) * World :=
  match rs with
  | [] => ([], w)
  | (c, next) :: rs' =>
      let (r, w1) := h c next w in
      let (out, w2) := serve h rs' w1 in
      (r :: out, w2)
  end.

(** The reference computation [sign] of the specification, external to
    the module (it builds the test fixtures): "the HMAC-SHA256 digest of b
    under the UTF-8 bytes of s", encoded "in standard Base64". *)
Definition sign (b : list byte) (s : string) : string :=
  Base64.encode (HMAC.mac (TextEncoder_encode s) b).

End Middleware.

Arguments events {App} w.
Arguments app {App} w.
Arguments Build_World {App} events app.

Arguments HMAC.mac : simpl never.
Arguments SHA256.digest : simpl never.
Arguments Base64.forgiving_decode : simpl never.
Arguments Base64.encode : simpl never.

Arguments ret {App A} a.
Arguments throw {App A} e.
Arguments bind {App A B} m k.
Arguments emit {App} e.
Arguments start {App A} m.
Arguments await {App A} p.
Arguments subtle_importKey {App} keyData.
Arguments subtle_verify {App} key signature data.
Arguments decodeBase64 {App} str.
Arguments req_header {App} c name.
Arguments req_arrayBuffer {App} c.
Arguments call_next {App} next.
Arguments importKeyFromChannelSecret {App} channelSecret.
Arguments validateSignature {App} body key signature.
Arguments handler {App} cryptoKey.
Arguments lineBotMiddleware {App} channelSecret.
Arguments serve {App} h rs w.

Definition signature_header : string := "x-line-signature".

(** The events a run appended to the log. *)
Definition new_events {App} (w w' : World App) : list Event :=
  skipn (List.length (events w)) (events w').

Definition settled_result (s : Settled unit) : Result unit :=
  match s with
  | Fulfilled _ => Ok tt
  | Rejected reason => Throw (Foreign reason)
  end.

Definition is_rejection (r : Result unit) : Prop :=
  exists status message, r = Throw (HTTPException status message).

(** ** Runs of the closure, as a relation *)

Section RunRelation.

Context {App : Type}.
Implicit Types (c : HonoRequest) (next : Next App) (p : Promise CryptoKey).

Local Open Scope list_scope.

(** The six ways a request goes through the closure, with the calls made,
    the outcome and the downstream state left behind. *)
Inductive handler_run p c next (a : App) : list Event -> Result unit -> App -> Prop :=
| run_no_signature :
    falsy (header c signature_header) = true ->
    handler_run p c next a
      [EvHeader signature_header]
      (Throw (HTTPException 401 "no signature")) a
| run_body_failed sgn reason :
    header c signature_header = Some sgn -> sgn <> EmptyString ->
    arrayBuffer c = Rejected reason ->
    handler_run p c next a
      [EvHeader signature_header; EvArrayBuffer]
      (Throw (Foreign reason)) a
| run_key_failed sgn body e :
    header c signature_header = Some sgn -> sgn <> EmptyString ->
    arrayBuffer c = Fulfilled body ->
    p = Throw e ->
    handler_run p c next a
      [EvHeader signature_header; EvArrayBuffer]
      (Throw e) a
| run_decode_failed sgn body key :
    header c signature_header = Some sgn -> sgn <> EmptyString ->
    arrayBuffer c = Fulfilled body ->
    p = Ok key ->
    Base64.forgiving_decode sgn = None ->
    handler_run p c next a
      [EvHeader signature_header; EvArrayBuffer; EvDecodeBase64 sgn]
      (Throw (DOMException "InvalidCharacterError")) a
| run_mismatch sgn body key bytes :
    header c signature_header = Some sgn -> sgn <> EmptyString ->
    arrayBuffer c = Fulfilled body ->
    p = Ok key ->
    Base64.forgiving_decode sgn = Some bytes ->
    HMAC.mac (key_data key) body <> bytes ->
    handler_run p c next a
      [EvHeader signature_header; EvArrayBuffer; EvDecodeBase64 sgn;
       EvVerify key bytes body false]
      (Throw (HTTPException 401 "signature validation failed")) a
| run_forward sgn body key :
    header c signature_header = Some sgn -> sgn <> EmptyString ->
    arrayBuffer c = Fulfilled body ->
    p = Ok key ->
    Base64.forgiving_decode sgn = Some (HMAC.mac (key_data key) body) ->
    handler_run p c next a
      [EvHeader signature_header; EvArrayBuffer; EvDecodeBase64 sgn;
       EvVerify key (HMAC.mac (key_data key) body) body true; EvNext]
      (settled_result (fst (next a))) (snd (next a)).

End RunRelation.

(** ** The fixture of the test suite *)

Definition dquote : string := String (ascii_of_N 34) EmptyString.

(** [JSON.stringify({ hello: "world" })]. *)
Definition fixture_body : list byte :=
  bytes_of_string
    ("{" ++ dquote ++ "hello" ++ dquote ++ ":" ++ dquote ++ "world" ++ dquote ++ "}").
Definition fixture_secret : string := "test_secret".
Definition validSignature : string := "t7Hn4ZDHqs6e+wdvI5TyQIvzie0DmMUmuXEBqyyE/tM=".
Definition invalidSignature : string := "t7Hn4ZDHqs6e+wdvi5TyQivzie0DmMUmuXEBqyyE/tM=".

(** The application of the test suite answers 200; its state is the
    status of the response. *)
Definition respond_200 : Next N := fun _ => (Fulfilled tt, 200%N).

Definition idle : World N := {| events := []; app := 0%N |}.

(** A request whose only header, if any, is the signature. *)
Definition request (signature : option string) (body : list byte) : HonoRequest :=
  {| header := fun name => if String.eqb name signature_header then signature else None;
     arrayBuffer := Fulfilled body |}.

Definition fixture_key : CryptoKey :=
  {| key_data := TextEncoder_encode fixture_secret |}.

(** [validSignature] without its padding character. *)
Definition unpaddedSignature : string := "t7Hn4ZDHqs6e+wdvI5TyQIvzie0DmMUmuXEBqyyE/tM".

(** The three cases of the test suite for [lineBotMiddleware]: accepted
    with the downstream status, rejected without a signature, rejected with
    a wrong one. *)
Definition run_fixture (signature : option string) : Result unit * World N :=
  match lineBotMiddleware (JSString fixture_secret) idle with
  | (Ok h, w) => h (request signature fixture_body) respond_200 w
  | (Throw e, w) => (Throw e, w)
  end.

(** Deriving the key from [s], then verifying [b] against [sign b s]. *)
Definition verify_signed {App} (s : string) (b : list byte) : M App bool :=
  bind (importKeyFromChannelSecret s)
       (fun key => validateSignature b key (sign b s)).

(** Three requests in a row: accepted, without signature, with a wrong
    signature. *)
Definition three_requests : list (HonoRequest * Next N) :=
  [(request (Some validSignature) fixture_body, respond_200);
   (request None fixture_body, respond_200);
   (request (Some invalidSignature) fixture_body, respond_200)].

(** * Properties *)

(** ** Known answers *)

(** Known answers: FIPS 180-4 example ["abc"], the empty message, a
    two-block message, and RFC 4231 test case 2 for HMAC. *)
Example sha256_abc :
  hex_of_bytes (SHA256.digest (bytes_of_string "abc"))
  = "ba7816bf8f01cfea414140de5dae2223b00361a396177a9cb410ff61f20015ad"%string.
Proof. vm_compute. reflexivity. Qed.

Example sha256_empty :
  hex_of_bytes (SHA256.digest [])
  = "e3b0c44298fc1c149afbf4c8996fb92427ae41e4649b934ca495991b7852b855"%string.
Proof. vm_compute. reflexivity. Qed.

Example sha256_two_blocks :
  hex_of_bytes (SHA256.digest (bytes_of_string
    "abcdbcdecdefdefgefghfghighijhijkijkljklmklmnlmnomnopnopq"))
  = "248d6a61d20638b8e5c026930c3e6039a33ce45964ff2167f6ecedd419db06c1"%string.
Proof. vm_compute. reflexivity. Qed.

Example hmac_rfc4231_case2 :
  hex_of_bytes (HMAC.mac (bytes_of_string "Jefe")
                         (bytes_of_string "what do ya want for nothing?"))
  = "5bdcc146bf60754e6a042426089575c75a003f089d2739839dec58b964ec3843"%string.
Proof. vm_compute. reflexivity. Qed.

(** RFC 4231 test case 6: a key longer than the block is hashed first. *)
Example hmac_rfc4231_case6 :
  hex_of_bytes
    (HMAC.mac (repeat xaa 131)
       (bytes_of_string "Test Using Larger Than Block-Size Key - Hash Key First"))
  = "60e431591ee0b67f0d8a26aacbf5b77f8e0bc6213728c5140546040f0ee37f54"%string.
Proof. vm_compute. reflexivity. Qed.

Example base64_encode_foobar :
  map Base64.encode (map bytes_of_string ["f"; "fo"; "foo"; "foob"; "fooba"; "foobar"]%string)
  = ["Zg=="; "Zm8="; "Zm9v"; "Zm9vYg=="; "Zm9vYmE="; "Zm9vYmFy"]%string.
Proof. vm_compute. reflexivity. Qed.

Example base64_decode_forgiving :
  map Base64.forgiving_decode ["Zm9vYg=="; "Zm9vYg"; " Zm9v Yg= = "; "Zm9vY"; "Zm9v!g=="; "Zg="; EmptyString]%string
  = [Some (bytes_of_string "foob"); Some (bytes_of_string "foob");
     Some (bytes_of_string "foob"); None; None; None; Some []].
Proof. vm_compute. reflexivity. Qed.

Example fixture_signature : sign fixture_body fixture_secret = validSignature.
Proof. vm_compute. reflexivity. Qed.

Example scenario_accept :
  fst (run_fixture (Some validSignature)) = Ok tt
  /\ app (snd (run_fixture (Some validSignature))) = 200%N.
Proof. split; vm_compute; reflexivity. Qed.

Example scenario_no_signature :
  fst (run_fixture None) = Throw (HTTPException 401 "no signature")
  /\ app (snd (run_fixture None)) = 0%N.
Proof. split; vm_compute; reflexivity. Qed.

Example scenario_invalid_signature :
  fst (run_fixture (Some invalidSignature))
  = Throw (HTTPException 401 "signature validation failed")
  /\ app (snd (run_fixture (Some invalidSignature))) = 0%N.
Proof. split; vm_compute; reflexivity. Qed.

(** A signature that [atob] refuses makes [validateSignature] throw. *)
Example validateSignature_throws_on_undecodable :
  fst (validateSignature fixture_body fixture_key "!" idle)
  = Throw (DOMException "InvalidCharacterError").
Proof. vm_compute. reflexivity. Qed.

(** ** Properties of the byte and Base64 layers *)

Ltac n_arith := zify; Z.to_euclidean_division_equations; lia.

Lemma byte_of_to_N (b : byte) : byte_of_N (Byte.to_N b) = b.
Proof.
  unfold byte_of_N.
  rewrite N.mod_small by (pose proof (Byte.to_N_bounded b); lia).
  now rewrite Byte.of_to_N.
Qed.

Lemma map_byte_of_to_N (bs : list byte) : map byte_of_N (map Byte.to_N bs) = bs.
Proof.
  induction bs as [|b bs IH]; simpl; [reflexivity|].
  now rewrite byte_of_to_N, IH.
Qed.

Lemma bytes_eqb_eq (xs ys : list byte) : bytes_eqb xs ys = true <-> xs = ys.
Proof.
  unfold bytes_eqb. destruct (list_eq_dec Byte.byte_eq_dec xs ys); split; congruence.
Qed.

Lemma bytes_eqb_refl (xs : list byte) : bytes_eqb xs xs = true.
Proof. now apply bytes_eqb_eq. Qed.

Lemma bytes_eqb_neq (xs ys : list byte) : xs <> ys -> bytes_eqb xs ys = false.
Proof.
  intro H. destruct (bytes_eqb xs ys) eqn:E; [|reflexivity].
  apply bytes_eqb_eq in E. contradiction.
Qed.

Lemma digest_length (msg : list byte) : List.length (SHA256.digest msg) = 32%nat.
Proof. unfold SHA256.digest. cbv zeta. rewrite length_map. reflexivity. Qed.

Lemma mac_length (key msg : list byte) : List.length (HMAC.mac key msg) = 32%nat.
Proof. unfold HMAC.mac. apply digest_length. Qed.

(** Induction three octets (or, read on sextets, any three items) at a time. *)
Lemma list_ind3 (A : Type) (P : list A -> Prop) :
  P [] -> (forall x, P [x]) -> (forall x y, P [x; y]) ->
  (forall x y z r, P r -> P (x :: y :: z :: r)) ->
  forall l, P l.
Proof.
  intros H0 H1 H2 H3.
  assert (forall l, P l /\ (forall x, P (x :: l)) /\ (forall x y, P (x :: y :: l)))
    as H; [|intro l; apply H].
  induction l as [|a l (IH0 & IH1 & IH2)]; repeat split; auto.
Qed.

Lemma below_64 (P : N -> Prop) :
  (forall n, (n < 64)%nat -> P (N.of_nat n)) -> forall s, s < 64 -> P s.
Proof.
  intros H s Hs. rewrite <- (N2Nat.id s). apply H. lia.
Qed.

Ltac each_sextet :=
  let n := fresh "n" in let Hn := fresh "Hn" in
  apply below_64; intros n Hn;
  do 64 (destruct n as [|n]; [vm_compute; reflexivity|]); lia.

Module Base64Facts.
Import Base64.

Lemma sextet_of_char_of_sextet s :
  s < 64 -> sextet_of_char (char_of_sextet s) = Some s.
Proof. revert s. each_sextet. Qed.

Lemma char_of_sextet_not_whitespace s :
  s < 64 -> is_ascii_whitespace (char_of_sextet s) = false.
Proof. revert s. each_sextet. Qed.

Lemma char_of_sextet_not_pad s :
  s < 64 -> Ascii.eqb (char_of_sextet s) pad_char = false.
Proof. revert s. each_sextet. Qed.

Lemma encode_sextets_below (bs : list N) :
  Forall (fun b => b < 256) bs -> Forall (fun s => s < 64) (encode_sextets bs).
Proof.
  induction bs as [| x | x y | x y z r IH] using list_ind3; intro H; simpl.
  - constructor.
  - inversion_clear H. repeat constructor; n_arith.
  - inversion_clear H as [|? ? Hx H']. inversion_clear H'.
    repeat constructor; n_arith.
  - inversion_clear H as [|? ? Hx H']. inversion_clear H' as [|? ? Hy H''].
    inversion_clear H'' as [|? ? Hz Hr].
    repeat (constructor; [n_arith|]). auto.
Qed.

Lemma decode_encode_sextets (bs : list N) :
  Forall (fun b => b < 256) bs -> decode_sextets (encode_sextets bs) = bs.
Proof.
  induction bs as [| x | x y | x y z r IH] using list_ind3; intro H.
  - reflexivity.
  - inversion_clear H. cbn [encode_sextets decode_sextets].
    f_equal. n_arith.
  - inversion_clear H as [|? ? Hx H']. inversion_clear H'.
    cbn [encode_sextets decode_sextets].
    f_equal; [|f_equal]; n_arith.
  - inversion_clear H as [|? ? Hx H']. inversion_clear H' as [|? ? Hy H''].
    inversion_clear H'' as [|? ? Hz Hr].
    cbn [encode_sextets decode_sextets]. rewrite (IH Hr).
    f_equal; [|f_equal; [|f_equal]]; n_arith.
Qed.

Lemma sextets_chars (ss : list N) :
  Forall (fun s => s < 64) ss -> sextets (map char_of_sextet ss) = Some ss.
Proof.
  induction 1 as [|s ss Hs _ IH]; simpl; [reflexivity|].
  now rewrite (sextet_of_char_of_sextet s Hs), IH.
Qed.

Lemma to_N_below (bs : list byte) : Forall (fun b => b < 256) (map Byte.to_N bs).
Proof.
  induction bs as [|b bs IH]; simpl; constructor; auto.
  pose proof (Byte.to_N_bounded b). lia.
Qed.

End Base64Facts.

Module Base64Roundtrip.
Import Base64 Base64Facts.
Local Open Scope list_scope.

Lemma filter_all (A : Type) (f : A -> bool) (l : list A) :
  (forall x, In x l -> f x = true) -> filter f l = l.
Proof.
  induction l as [|a l IH]; simpl; intro H; [reflexivity|].
  rewrite (H a) by now left. f_equal. apply IH. intros x Hx. apply H. now right.
Qed.

Lemma pad_char_not_whitespace : is_ascii_whitespace pad_char = false.
Proof. reflexivity. Qed.

Lemma strip_whitespace_encoded (ss : list N) (k : nat) :
  Forall (fun s => s < 64) ss ->
  strip_whitespace (map char_of_sextet ss ++ repeat pad_char k)
  = map char_of_sextet ss ++ repeat pad_char k.
Proof.
  intro H. apply filter_all. intros c Hc.
  apply in_app_or in Hc. destruct Hc as [Hc | Hc].
  - apply in_map_iff in Hc. destruct Hc as (s & <- & Hs).
    rewrite Forall_forall in H.
    now rewrite (char_of_sextet_not_whitespace s (H s Hs)).
  - apply repeat_spec in Hc. subst c. reflexivity.
Qed.

Lemma strip_padding_app (l : list ascii) (k : nat) :
  (k <= 2)%nat ->
  Nat.modulo (List.length l + k) 4 = 0%nat ->
  (forall c, In c l -> Ascii.eqb c pad_char = false) ->
  strip_padding (l ++ repeat pad_char k) = l.
Proof.
  intros Hk Hlen Hl. unfold strip_padding.
  rewrite length_app, repeat_length, Hlen, rev_app_distr.
  change (Nat.eqb 0 0) with true. cbv iota.
  assert (Hrev : forall c, In c (rev l) -> Ascii.eqb c pad_char = false)
    by (intros c Hc; apply Hl; now apply in_rev).
  destruct k as [|[|[|k]]]; [| | |lia].
  - change (rev (repeat pad_char 0) ++ rev l) with (rev l). rewrite app_nil_r.
    destruct (rev l) as [|p1 [|p2 r]]; try reflexivity.
    now rewrite (Hrev p1) by now left.
  - change (rev (repeat pad_char 1) ++ rev l) with (pad_char :: rev l).
    destruct (rev l) as [|p2 r] eqn:E.
    + apply (f_equal (@rev ascii)) in E. rewrite rev_involutive in E.
      subst l. discriminate Hlen.
    + cbv beta iota. rewrite Ascii.eqb_refl, (Hrev p2) by now left.
      now rewrite <- E, rev_involutive.
  - change (rev (repeat pad_char 2) ++ rev l) with (pad_char :: pad_char :: rev l).
    cbv beta iota. rewrite !Ascii.eqb_refl. apply rev_involutive.
Qed.

Lemma encoded_length (bs : list N) :
  Nat.modulo (List.length (encode_sextets bs)
              + Nat.modulo (3 - Nat.modulo (List.length bs) 3) 3) 4 = 0%nat
  /\ Nat.modulo (List.length (encode_sextets bs)) 4 <> 1%nat.
Proof.
  induction bs as [| x | x y | x y z r IH] using list_ind3;
    try (split; [reflexivity | discriminate]).
  cbn [encode_sextets List.length].
  revert IH. generalize (List.length (encode_sextets r)) (List.length r).
  intros n m IH. split; n_arith.
Qed.

Lemma padding_le (n : nat) : (Nat.modulo (3 - Nat.modulo n 3) 3 <= 2)%nat.
Proof. n_arith. Qed.

(** Decoding inverts the standard encoding. *)
Lemma forgiving_decode_encode (bs : list byte) :
  forgiving_decode (encode bs) = Some bs.
Proof.
  unfold forgiving_decode, encode, padding.
  rewrite list_ascii_of_string_of_list_ascii.
  pose proof (encode_sextets_below _ (to_N_below bs)) as Hss.
  rewrite strip_whitespace_encoded by exact Hss.
  destruct (encoded_length (map Byte.to_N bs)) as [Hlen Hne].
  rewrite length_map in Hlen.
  rewrite strip_padding_app.
  - rewrite length_map.
    destruct (Nat.eqb_spec
                (Nat.modulo (List.length (encode_sextets (map Byte.to_N bs))) 4) 1)
      as [E|_]; [contradiction|].
    rewrite (sextets_chars _ Hss).
    rewrite decode_encode_sextets by apply to_N_below.
    now rewrite map_byte_of_to_N.
  - apply padding_le.
  - now rewrite length_map.
  - intros c Hc. apply in_map_iff in Hc. destruct Hc as (s & <- & Hs).
    rewrite Forall_forall in Hss. now apply char_of_sextet_not_pad, Hss.
Qed.

End Base64Roundtrip.

(** Standard Base64 is accepted by the decoder. *)
Module Base64Wellformed.
Import Base64.
Local Open Scope list_scope.

Lemma alphabet_not_whitespace (c : ascii) :
  in_alphabet c = true -> is_ascii_whitespace c = false.
Proof.
  destruct c as [[] [] [] [] [] [] [] []]; vm_compute; congruence.
Qed.

Lemma alphabet_not_pad (c : ascii) :
  in_alphabet c = true -> Ascii.eqb c pad_char = false.
Proof.
  destruct c as [[] [] [] [] [] [] [] []]; vm_compute; congruence.
Qed.

Lemma sextets_alphabet (cs : list ascii) :
  forallb in_alphabet cs = true -> exists ss, sextets cs = Some ss.
Proof.
  induction cs as [|c cs IH]; simpl; intro H.
  - eauto.
  - apply andb_prop in H. destruct H as [Hc Hcs].
    destruct (IH Hcs) as [ss ->]. unfold in_alphabet in Hc.
    destruct (sextet_of_char c); [eauto | discriminate].
Qed.

Lemma forallb_rev (A : Type) (f : A -> bool) (l : list A) :
  forallb f (rev l) = forallb f l.
Proof.
  induction l as [|a l IH]; simpl; [reflexivity|].
  rewrite forallb_app, IH. simpl. rewrite andb_true_r. apply andb_comm.
Qed.

Lemma strip_padding_rev (cs : list ascii) :
  Nat.modulo (List.length cs) 4 = 0%nat ->
  strip_padding cs
  = match rev cs with
    | p1 :: p2 :: r =>
        if Ascii.eqb p1 pad_char
        then if Ascii.eqb p2 pad_char then rev r else rev (p2 :: r)
        else cs
    | _ => cs
    end.
Proof. intro H. unfold strip_padding. now rewrite H. Qed.

Lemma length_rev_cons (cs r : list ascii) (p1 p2 : ascii) :
  rev cs = p1 :: p2 :: r -> List.length cs = S (S (List.length r)).
Proof.
  intro E. rewrite <- (length_rev cs), E. reflexivity.
Qed.

Lemma wellformed_decodes (s : string) :
  rfc4648_wellformed s = true -> exists bytes, forgiving_decode s = Some bytes.
Proof.
  unfold rfc4648_wellformed, forgiving_decode.
  set (cs := list_ascii_of_string s). intro H.
  apply andb_prop in H. destruct H as [Hlen Hshape].
  apply Nat.eqb_eq in Hlen.
  set (keep := fun c => in_alphabet c || Ascii.eqb c pad_char).
  assert (forallb keep (rev cs) = true) as Hkeep.
  { destruct (rev cs) as [|p1 [|p2 r]].
    - reflexivity.
    - cbn in Hshape |- *. unfold keep. apply andb_prop in Hshape.
      now rewrite (proj1 Hshape).
    - assert (forall l, forallb in_alphabet l = true -> forallb keep l = true) as Hl.
      { intros l Hall. apply forallb_forall. intros c Hc. unfold keep.
        rewrite forallb_forall in Hall. now rewrite (Hall c Hc). }
      destruct (Ascii.eqb p1 pad_char) eqn:E1.
      + apply andb_prop in Hshape. destruct Hshape as [H2 Hr].
        cbn [forallb]. unfold keep at 1 2. rewrite E1, orb_true_r, (Hl r Hr).
        destruct (Ascii.eqb p2 pad_char); [now rewrite orb_true_r | now rewrite H2]. 
      + now apply Hl. }
  rewrite forallb_rev in Hkeep.
  assert (strip_whitespace cs = cs) as ->.
  { apply Base64Roundtrip.filter_all. intros c Hc.
    rewrite forallb_forall in Hkeep. specialize (Hkeep c Hc). unfold keep in Hkeep.
    apply orb_prop in Hkeep. destruct Hkeep as [Ha|Hp].
    - now rewrite (alphabet_not_whitespace c Ha).
    - apply Ascii.eqb_eq in Hp. subst c. reflexivity. }
  rewrite (strip_padding_rev cs Hlen).
  assert (exists body,
             match rev cs with
             | p1 :: p2 :: r =>
                 if Ascii.eqb p1 pad_char
                 then if Ascii.eqb p2 pad_char then rev r else rev (p2 :: r)
                 else cs
             | _ => cs
             end = body
             /\ forallb in_alphabet body = true
             /\ Nat.modulo (List.length body) 4 <> 1%nat) as (body & -> & Hb & Hm).
  { destruct (rev cs) as [|p1 [|p2 r]] eqn:E.
    - exists cs. rewrite <- (forallb_rev _ _ cs), E. repeat split.
      rewrite Hlen. discriminate.
    - exists cs. rewrite <- (forallb_rev _ _ cs), E. repeat split.
      + exact Hshape.
      + rewrite Hlen. discriminate.
    - pose proof (length_rev_cons cs r p1 p2 E) as Hl.
      destruct (Ascii.eqb p1 pad_char) eqn:E1.
      + apply andb_prop in Hshape. destruct Hshape as [H2 Hr].
        destruct (Ascii.eqb p2 pad_char) eqn:E2.
        * exists (rev r). rewrite forallb_rev, length_rev. repeat split; [exact Hr|].
          rewrite Hl in Hlen. revert Hlen. generalize (List.length r). intros n Hn.
          n_arith.
        * exists (rev (p2 :: r)). rewrite forallb_rev, length_rev. repeat split.
          -- cbn [forallb]. now rewrite H2, Hr.
          -- cbn [List.length]. rewrite Hl in Hlen. revert Hlen.
             generalize (List.length r). intros n Hn. n_arith.
      + exists cs. rewrite <- (forallb_rev _ _ cs), E. repeat split.
        * exact Hshape.
        * rewrite Hlen. discriminate. }
  destruct (Nat.eqb_spec (Nat.modulo (List.length body) 4) 1); [contradiction|].
  destruct (sextets_alphabet body Hb) as [ss ->]. eauto.
Qed.

End Base64Wellformed.

(** ** Runs of the interceptor *)

Section Runs.

Context {App : Type}.
Implicit Types (w : World App) (c : HonoRequest) (next : Next App)
  (p : Promise CryptoKey) (tr : list Event).

Local Open Scope list_scope.

Lemma new_events_app w w' tr :
  events w' = events w ++ tr -> new_events w w' = tr.
Proof.
  intro H. unfold new_events. rewrite H, skipn_app, skipn_all, Nat.sub_diag.
  reflexivity.
Qed.


Ltac run_monad :=
  unfold handler, req_header, req_arrayBuffer, validateSignature,
    decodeBase64, subtle_verify, call_next, await, bind, emit, ret, throw;
  cbn [events app fst snd].

Lemma falsy_some (sgn : string) : falsy (Some sgn) = false <-> sgn <> EmptyString.
Proof. unfold falsy. destruct (String.eqb_spec sgn EmptyString); split; congruence. Qed.

(** Every run of the closure is one of the six, and appends its calls to
    the log. *)
Lemma handler_runs p c next w :
  exists tr,
    events (snd (handler p c next w)) = events w ++ tr /\
    handler_run p c next (app w) tr
      (fst (handler p c next w)) (app (snd (handler p c next w))).
Proof.
  run_monad. fold signature_header.
  destruct (falsy (header c signature_header)) eqn:Hf.
  { eexists. split; [reflexivity|]. now constructor. }
  destruct (header c signature_header) as [sgn|] eqn:Hh; [|discriminate Hf].
  apply falsy_some in Hf.
  destruct (arrayBuffer c) as [body|reason] eqn:Hb.
  2:{ eexists. split; [cbn; rewrite <- app_assoc; reflexivity|].
      cbn. eapply run_body_failed; eauto. }
  destruct p as [key|e] eqn:Hp.
  2:{ eexists. split; [cbn; rewrite <- app_assoc; reflexivity|].
      cbn. eapply run_key_failed; eauto. }
  destruct (Base64.forgiving_decode sgn) as [bytes|] eqn:Hd.
  2:{ eexists. split; [cbn; rewrite <- !app_assoc; reflexivity|].
      cbn. eapply run_decode_failed; eauto. }
  cbn [events app].
  destruct (bytes_eqb (HMAC.mac (key_data key) body) bytes) eqn:He.
  - apply bytes_eqb_eq in He. subst bytes. cbn [negb].
    cbn [events app].
    destruct (next (app w)) as [[[]|reason] a'] eqn:Hn;
      (eexists; split; [cbn; rewrite <- !app_assoc; reflexivity|]);
      cbn [fst snd events app].
    + replace (Ok tt) with (settled_result (fst (next (app w))))
        by now rewrite Hn.
      replace a' with (snd (next (app w))) by now rewrite Hn.
      eapply run_forward; eauto.
    + replace (Throw (Foreign reason)) with (settled_result (fst (next (app w))))
        by now rewrite Hn.
      replace a' with (snd (next (app w))) by now rewrite Hn.
      eapply run_forward; eauto.
  - cbn [negb]. eexists. split; [cbn; rewrite <- !app_assoc; reflexivity|].
    cbn. eapply run_mismatch; eauto.
    intro E. rewrite E, bytes_eqb_refl in He. discriminate.
Qed.

End Runs.

(** ** The verifier *)

Section Verifier.

Context {App : Type}.
Implicit Types (w : World App) (body bytes : list byte) (key : CryptoKey)
  (sgn secret : string).

Lemma validateSignature_decoded body key sgn bytes w :
  Base64.forgiving_decode sgn = Some bytes ->
  validateSignature body key sgn w
  = (Ok (bytes_eqb (HMAC.mac (key_data key) body) bytes),
     {| events := (events w ++ [EvDecodeBase64 sgn])
                    ++ [EvVerify key bytes body
                          (bytes_eqb (HMAC.mac (key_data key) body) bytes)];
        app := app w |}).
Proof.
  intro H. unfold validateSignature, decodeBase64, subtle_verify, bind, emit, ret.
  cbn [events app]. rewrite H. reflexivity.
Qed.

Lemma validateSignature_undecodable body key sgn w :
  Base64.forgiving_decode sgn = None ->
  validateSignature body key sgn w
  = (Throw (DOMException "InvalidCharacterError"),
     {| events := events w ++ [EvDecodeBase64 sgn]; app := app w |}).
Proof.
  intro H. unfold validateSignature, decodeBase64, subtle_verify, bind, emit, throw.
  cbn [events app]. rewrite H. reflexivity.
Qed.

Lemma importKey_nonempty secret w :
  secret <> EmptyString ->
  importKeyFromChannelSecret secret w
  = (Ok {| key_data := TextEncoder_encode secret |},
     {| events := events w ++ [EvImportKey (TextEncoder_encode secret)];
        app := app w |}).
Proof.
  intro H. destruct secret as [|a s]; [congruence|].
  reflexivity.
Qed.

Lemma importKey_empty w :
  importKeyFromChannelSecret EmptyString w
  = (Throw (DOMException "DataError"),
     {| events := events w ++ [EvImportKey []]; app := app w |}).
Proof. reflexivity. Qed.

(** A well-formed standard Base64 signature never makes
    [validateSignature] throw. *)
Lemma validateSignature_wellformed body key sgn w :
  Base64.rfc4648_wellformed sgn = true ->
  exists b, fst (validateSignature body key sgn w) = Ok b.
Proof.
  intro H. destruct (Base64Wellformed.wellformed_decodes sgn H) as [bytes Hd].
  rewrite (validateSignature_decoded body key sgn bytes w Hd).
  eexists. reflexivity.
Qed.

End Verifier.

(** ** Claims about [validateSignature] *)

(** C1.  For every payload, verification key and signature string,
    [validateSignature] returns [true] if and only if the signature decodes
    from Base64 to exactly the HMAC-SHA256 digest of the payload under the
    key, the whole byte sequence; for a Base64 signature string (one that
    decodes, to [bytes]) it returns [false] in every other case, and
    nothing shorter or longer than the thirty-two bytes of the digest is
    accepted. *)
Theorem validateSignature_true_iff_digest_equals_decoded
    (App : Type) (body : list byte) (key : CryptoKey) (sgn : string)
    (w : World App) :
  (fst (validateSignature body key sgn w) = Ok true
   <-> Base64.forgiving_decode sgn = Some (HMAC.mac (key_data key) body))
  /\ (forall bytes,
        Base64.forgiving_decode sgn = Some bytes ->
        (fst (validateSignature body key sgn w) = Ok false
         <-> HMAC.mac (key_data key) body <> bytes)
        /\ (fst (validateSignature body key sgn w) = Ok true
            -> List.length bytes = 32%nat)).
Proof.
  destruct (Base64.forgiving_decode sgn) as [decoded|] eqn:Hd.
  - rewrite (validateSignature_decoded body key sgn decoded w Hd). cbn [fst].
    destruct (bytes_eqb (HMAC.mac (key_data key) body) decoded) eqn:E.
    + apply bytes_eqb_eq in E. subst decoded. split; [tauto|].
      intros bytes Hb. inversion Hb; subst bytes. split.
      * split; [discriminate | tauto].
      * intros _. apply mac_length.
    + assert (HMAC.mac (key_data key) body <> decoded) as Hne
        by (intro H; rewrite H, bytes_eqb_refl in E; discriminate).
      split.
      * split; [discriminate | intro H; inversion H; congruence].
      * intros bytes Hb. inversion Hb; subst bytes.
        split; [tauto | discriminate].
  - rewrite (validateSignature_undecodable body key sgn w Hd). cbn [fst].
    split; [split; discriminate | discriminate].
Qed.

Lemma validateSignature_true_iff_digest_equals_decoded_witness :
  fst (validateSignature fixture_body fixture_key validSignature idle) = Ok true
  /\ (exists bytes, Base64.forgiving_decode invalidSignature = Some bytes
                    /\ HMAC.mac (key_data fixture_key) fixture_body <> bytes)
  /\ fst (validateSignature fixture_body fixture_key invalidSignature idle) = Ok false.
Proof.
  split; [|split].
  - apply (proj1 (validateSignature_true_iff_digest_equals_decoded
                    N fixture_body fixture_key validSignature idle)).
    vm_compute. reflexivity.
  - eexists. split; [vm_compute; reflexivity|].
    vm_compute. discriminate.
  - refine (proj2 (proj1 (proj2 (validateSignature_true_iff_digest_equals_decoded
                    N fixture_body fixture_key invalidSignature idle)
                    (match Base64.forgiving_decode invalidSignature with
                     | Some bytes => bytes
                     | None => []
                     end) _)) _).
    + vm_compute. reflexivity.
    + vm_compute. discriminate.
Defined.

(** C2, as stated, fails: the signature of the fixture without its padding
    character is not well-formed standard Base64, and is accepted. *)
Lemma validateSignature_accepts_unpadded_signature :
  Base64.rfc4648_wellformed unpaddedSignature = false
  /\ fst (validateSignature fixture_body fixture_key unpaddedSignature idle) = Ok true.
Proof. split; vm_compute; reflexivity. Qed.

(** C2, amended.  For a signature string that is not well-formed standard
    Base64 but that the decoder accepts all the same (padding left out,
    ASCII whitespace), [validateSignature] does not throw: it returns a
    boolean, which is [false] unless the decoded bytes are the digest. *)
Theorem validateSignature_malformed_but_decodable
    (App : Type) (body : list byte) (key : CryptoKey) (sgn : string)
    (bytes : list byte) (w : World App) :
  Base64.rfc4648_wellformed sgn = false ->
  Base64.forgiving_decode sgn = Some bytes ->
  exists b, fst (validateSignature body key sgn w) = Ok b
            /\ (bytes <> HMAC.mac (key_data key) body -> b = false).
Proof.
  intros _ Hd. rewrite (validateSignature_decoded body key sgn bytes w Hd).
  cbn [fst]. eexists. split; [reflexivity|].
  intro Hne. apply bytes_eqb_neq. congruence.
Qed.

Lemma validateSignature_malformed_but_decodable_witness :
  Base64.rfc4648_wellformed "Zm9v Yg" = false
  /\ Base64.forgiving_decode "Zm9v Yg" = Some (bytes_of_string "foob")
  /\ exists b, fst (validateSignature fixture_body fixture_key "Zm9v Yg" idle) = Ok b
               /\ (bytes_of_string "foob" <> HMAC.mac (key_data fixture_key) fixture_body
                   -> b = false).
Proof.
  split; [reflexivity|]. split; [reflexivity|].
  apply (validateSignature_malformed_but_decodable
           N fixture_body fixture_key "Zm9v Yg" (bytes_of_string "foob") idle);
    reflexivity.
Defined.

(** C8, as stated, fails at the empty secret: the platform refuses a key of
    length zero, so there is no key to verify with. *)
Lemma verify_signed_empty_secret_throws :
  fst (verify_signed EmptyString fixture_body idle) = Throw (DOMException "DataError")
  /\ fst (verify_signed EmptyString fixture_body idle) <> Ok true.
Proof. split; [reflexivity | discriminate]. Qed.

(** C8, amended.  For every non-empty secret [s] and every payload [b],
    verifying [b] under the key derived from [s] against [sign b s] returns
    [true]. *)
Theorem verify_signed_roundtrip
    (App : Type) (s : string) (b : list byte) (w : World App) :
  s <> EmptyString ->
  fst (verify_signed s b w) = Ok true.
Proof.
  intro Hs. unfold verify_signed, bind.
  rewrite (importKey_nonempty s w Hs).
  erewrite validateSignature_decoded
    by (unfold sign; apply Base64Roundtrip.forgiving_decode_encode).
  cbn [fst key_data]. now rewrite bytes_eqb_refl.
Qed.

Lemma verify_signed_roundtrip_witness :
  fixture_secret <> EmptyString
  /\ fst (verify_signed fixture_secret fixture_body idle) = Ok true.
Proof.
  assert (fixture_secret <> EmptyString) as Hs by discriminate.
  split; [exact Hs|].
  exact (verify_signed_roundtrip N fixture_secret fixture_body idle Hs).
Defined.

(** C9.  [validateSignature] is deterministic and keeps no state: its
    result does not depend on the world it is run in, a second invocation
    after the first returns the same result, and the downstream state is
    left as it was. *)
Theorem validateSignature_deterministic
    (App : Type) (body : list byte) (key : CryptoKey) (sgn : string)
    (w1 w2 : World App) :
  fst (validateSignature body key sgn w1) = fst (validateSignature body key sgn w2)
  /\ fst (validateSignature body key sgn (snd (validateSignature body key sgn w1)))
     = fst (validateSignature body key sgn w1)
  /\ app (snd (validateSignature body key sgn w1)) = app w1.
Proof.
  destruct (Base64.forgiving_decode sgn) as [bytes|] eqn:Hd.
  - rewrite !(validateSignature_decoded body key sgn bytes _ Hd). auto.
  - rewrite !(validateSignature_undecodable body key sgn _ Hd). auto.
Qed.

(** ** Construction *)

Section Construction.

Context {App : Type}.
Implicit Types (w : World App) (v : JSValue).

Local Open Scope list_scope.

Lemma typeof_string v : typeof v = "string"%string <-> exists s, v = JSString s.
Proof.
  split.
  - destruct v; try discriminate. eauto.
  - intros [s ->]. reflexivity.
Qed.

Lemma lineBotMiddleware_string (s : string) w :
  lineBotMiddleware (JSString s) w
  = (Ok (handler (fst (importKeyFromChannelSecret s w))),
     {| events := events w ++ [EvImportKey (TextEncoder_encode s)];
        app := app w |}).
Proof.
  destruct s as [|a s]; reflexivity.
Qed.

Lemma lineBotMiddleware_not_string v w :
  typeof v <> "string"%string ->
  lineBotMiddleware v w = (Throw (Error "no channel secret"), w).
Proof.
  destruct v; intro H; try reflexivity. now contradiction H.
Qed.

(** The promise captured by a constructed interceptor is settled with the
    key of the secret, or rejected by the platform. *)
Lemma lineBotMiddleware_constructed v w0 w1 (h : MiddlewareHandler App) :
  lineBotMiddleware v w0 = (Ok h, w1) ->
  exists s p,
    v = JSString s /\ h = handler p
    /\ (p = Ok {| key_data := TextEncoder_encode s |}
        \/ p = Throw (DOMException "DataError")).
Proof.
  intro H. destruct (String.eqb_spec (typeof v) "string") as [E|E].
  - apply typeof_string in E. destruct E as [s ->].
    rewrite lineBotMiddleware_string in H. inversion H; subst.
    exists s. eexists. split; [reflexivity|]. split; [reflexivity|].
    destruct s as [|a s]; [right|left]; reflexivity.
  - rewrite (lineBotMiddleware_not_string v w0 E) in H. discriminate.
Qed.

End Construction.

(** C3.  For every value of [channelSecret] that is not a string,
    [lineBotMiddleware] throws the configuration error at once: no
    interceptor is returned and nothing else has happened (no key
    derivation, no request).  For every string it returns an interceptor
    without throwing. *)
Theorem lineBotMiddleware_throws_unless_string
    (App : Type) (v : JSValue) (w : World App) :
  (typeof v <> "string"%string ->
   lineBotMiddleware v w = (Throw (Error "no channel secret"), w))
  /\ (typeof v = "string"%string ->
      exists h, fst (lineBotMiddleware v w) = Ok h).
Proof.
  split.
  - apply lineBotMiddleware_not_string.
  - intro H. apply typeof_string in H. destruct H as [s ->].
    rewrite lineBotMiddleware_string. eexists. reflexivity.
Qed.

Lemma lineBotMiddleware_throws_unless_string_witness :
  lineBotMiddleware JSNull idle = (Throw (Error "no channel secret"), idle)
  /\ lineBotMiddleware JSUndefined idle = (Throw (Error "no channel secret"), idle)
  /\ lineBotMiddleware (JSNumber 42) idle = (Throw (Error "no channel secret"), idle)
  /\ exists h, fst (lineBotMiddleware (JSString fixture_secret) idle) = Ok h.
Proof.
  split; [|split; [|split]].
  - apply (proj1 (lineBotMiddleware_throws_unless_string N JSNull idle)).
    discriminate.
  - apply (proj1 (lineBotMiddleware_throws_unless_string N JSUndefined idle)).
    discriminate.
  - apply (proj1 (lineBotMiddleware_throws_unless_string N (JSNumber 42) idle)).
    discriminate.
  - apply (proj2 (lineBotMiddleware_throws_unless_string
                    N (JSString fixture_secret) idle)).
    reflexivity.
Defined.

(** C4, as stated, fails: construction with the empty string returns an
    interceptor. *)
Lemma lineBotMiddleware_accepts_empty_secret :
  exists h, lineBotMiddleware (JSString EmptyString) idle
            = (Ok h, {| events := [EvImportKey []]; app := 0%N |}).
Proof. eexists. reflexivity. Qed.

(** C4, amended.  The secret accepted at construction time must be of type
    string: construction fails exactly when the value is not a string
    (absent or of another type).  The empty string is a string, and
    construction with it returns an interceptor. *)
Theorem lineBotMiddleware_throws_iff_not_string
    (App : Type) (v : JSValue) (w : World App) :
  ((exists e, fst (lineBotMiddleware v w) = Throw e) <-> typeof v <> "string"%string)
  /\ exists h, fst (lineBotMiddleware (JSString EmptyString) w) = Ok h.
Proof.
  split; [split|].
  - intros [e He] Hs. apply typeof_string in Hs. destruct Hs as [s ->].
    rewrite lineBotMiddleware_string in He. discriminate.
  - intro H. rewrite (lineBotMiddleware_not_string v w H). eexists. reflexivity.
  - rewrite lineBotMiddleware_string. eexists. reflexivity.
Qed.

Lemma lineBotMiddleware_throws_iff_not_string_witness :
  typeof JSNull <> "string"%string
  /\ exists e, fst (lineBotMiddleware JSNull idle) = Throw e.
Proof.
  assert (typeof JSNull <> "string"%string) as H by discriminate.
  split; [exact H|].
  exact (proj2 (proj1 (lineBotMiddleware_throws_iff_not_string N JSNull idle)) H).
Defined.

(** ** The interception policy *)

Section Policy.

Context {App : Type}.
Implicit Types (w : World App) (c : HonoRequest) (next : Next App)
  (p : Promise CryptoKey) (tr : list Event) (r : Result unit).

Local Open Scope list_scope.

Lemma settled_result_not_rejection (s : Settled unit) :
  ~ is_rejection (settled_result s).
Proof. intros (st & msg & H). destruct s; discriminate H. Qed.

Lemma count_app (f : Event -> bool) tr1 tr2 :
  count f (tr1 ++ tr2) = (count f tr1 + count f tr2)%nat.
Proof. unfold count. now rewrite filter_app, length_app. Qed.

(** A run derives no key, and verifies with the captured key only. *)
Lemma handler_run_key p c next a tr r a' :
  handler_run p c next a tr r a' ->
  count is_import tr = 0%nat
  /\ forall key sg body b, In (EvVerify key sg body b) tr -> p = Ok key.
Proof.
  intro H. split.
  - destruct H; reflexivity.
  - intros key sg body b Hin.
    destruct H; cbn in Hin;
      repeat (destruct Hin as [Hin|Hin]; try discriminate Hin);
      try contradiction; inversion Hin; subst; reflexivity.
Qed.

Lemma serve_events p (rs : list (HonoRequest * Next App)) w :
  exists tr,
    events (snd (serve (handler p) rs w)) = events w ++ tr
    /\ count is_import tr = 0%nat
    /\ forall key sg body b, In (EvVerify key sg body b) tr -> p = Ok key.
Proof.
  revert w. induction rs as [|[c next] rs IH]; intro w; cbn [serve].
  - exists []. rewrite app_nil_r. repeat split. intros ? ? ? ? [].
  - destruct (handler_runs p c next w) as (tr1 & E1 & R1).
    destruct (handler p c next w) as [r w1]. cbn [fst snd] in E1, R1.
    destruct (IH w1) as (tr2 & E2 & C2 & V2).
    destruct (serve (handler p) rs w1) as [out w2]. cbn [fst snd] in E2 |- *.
    destruct (handler_run_key _ _ _ _ _ _ _ R1) as [C1 V1].
    exists (tr1 ++ tr2). split; [|split].
    + now rewrite E2, E1, app_assoc.
    + now rewrite count_app, C1, C2.
    + intros key sg body b Hin. apply in_app_or in Hin.
      destruct Hin; eauto.
Qed.

End Policy.

(** C5.  Every rejection raised by an interceptor that [lineBotMiddleware]
    built carries status 401 and one of the two fixed reasons.  When the
    header is absent the reason is "no signature", decided with the body
    unread (the header lookup is the only call made); when
    [crypto.subtle.verify], whose result [validateSignature] returns, has
    answered [false], the header is present and the reason is "signature
    validation failed".  (What a collaborator or the platform throws is not
    a rejection: it passes through as it is.) *)
Theorem interceptor_rejections
    (App : Type) (v : JSValue) (w0 w1 : World App) (h : MiddlewareHandler App)
    (c : HonoRequest) (next : Next App) (w : World App) :
  lineBotMiddleware v w0 = (Ok h, w1) ->
  (forall status message,
      fst (h c next w) = Throw (HTTPException status message) ->
      status = 401
      /\ (message = "no signature"%string
          \/ message = "signature validation failed"%string))
  /\ (header c signature_header = None ->
      fst (h c next w) = Throw (HTTPException 401 "no signature")
      /\ new_events w (snd (h c next w)) = [EvHeader signature_header])
  /\ (forall key sg body,
        In (EvVerify key sg body false) (new_events w (snd (h c next w))) ->
        (exists sgn, header c signature_header = Some sgn)
        /\ fst (h c next w)
           = Throw (HTTPException 401 "signature validation failed")).
Proof.
  intro Hb.
  destruct (lineBotMiddleware_constructed v w0 w1 h Hb) as (s & p & _ & -> & Hp).
  destruct (handler_runs p c next w) as (tr & E & R).
  rewrite (new_events_app _ _ _ E).
  split; [|split].
  - intros status message Hr. rewrite Hr in R.
    inversion R; subst; auto.
    + destruct Hp as [Hp|Hp]; discriminate Hp.
    + exfalso. eapply settled_result_not_rejection. eexists _, _. eauto.
  - intro Hh. inversion R; subst; try congruence. auto.
  - intros key sg body Hin.
    inversion R; subst; cbn in Hin;
      repeat (destruct Hin as [Hin|Hin]; try discriminate Hin);
      try contradiction.
    split; [eauto | reflexivity].
Qed.

Lemma interceptor_rejections_witness :
  exists h w1,
    lineBotMiddleware (JSString fixture_secret) idle = (Ok h, w1)
    /\ fst (h (request None fixture_body) respond_200 w1)
       = Throw (HTTPException 401 "no signature")
    /\ fst (h (request (Some invalidSignature) fixture_body) respond_200 w1)
       = Throw (HTTPException 401 "signature validation failed").
Proof.
  eexists _, _. split; [reflexivity|]. split.
  - refine (proj1 (proj1 (proj2 (interceptor_rejections
        N (JSString fixture_secret) idle _ _ (request None fixture_body)
        respond_200 _ eq_refl)) _)).
    reflexivity.
  - refine (proj2 (proj2 (proj2 (interceptor_rejections
        N (JSString fixture_secret) idle _ _
        (request (Some invalidSignature) fixture_body)
        respond_200 _ eq_refl))
        fixture_key
        (match Base64.forgiving_decode invalidSignature with
         | Some bytes => bytes
         | None => []
         end)
        fixture_body _)).
    vm_compute.
    right. right. right. left. reflexivity.
Defined.

(** C6.  The continuation [next] is invoked if and only if the signature
    has been verified ([crypto.subtle.verify] answered [true]), and then
    exactly once, as the last call of the run; the outcome of the
    interceptor is then the outcome of [next], and the downstream state the
    one [next] left.  A run that ends in a rejection never invokes [next],
    and a run that does not invoke it throws and leaves the downstream
    state untouched. *)
Theorem next_invoked_iff_verified
    (App : Type) (p : Promise CryptoKey) (c : HonoRequest) (next : Next App)
    (w : World App) :
  let r := fst (handler p c next w) in
  let w' := snd (handler p c next w) in
  let tr := new_events w w' in
  ((exists key sg body, In (EvVerify key sg body true) tr) <-> In EvNext tr)
  /\ (In EvNext tr ->
      count is_next tr = 1%nat
      /\ (exists tr0, tr = (tr0 ++ [EvNext])%list /\ count is_next tr0 = 0%nat)
      /\ r = settled_result (fst (next (app w)))
      /\ app w' = snd (next (app w)))
  /\ (is_rejection r -> ~ In EvNext tr)
  /\ (~ In EvNext tr ->
      count is_next tr = 0%nat /\ (exists e, r = Throw e) /\ app w' = app w).
Proof.
  cbv zeta.
  destruct (handler_runs p c next w) as (tr & E & R).
  rewrite (new_events_app _ _ _ E).
  inversion R as [Hf Htr Hr Ha
                 | sgn reason Hh Hs Hb Htr Hr Ha
                 | sgn body e Hh Hs Hb Hp Htr Hr Ha
                 | sgn body key Hh Hs Hb Hp Hd Htr Hr Ha
                 | sgn body key bytes Hh Hs Hb Hp Hd Hne Htr Hr Ha
                 | sgn body key Hh Hs Hb Hp Hd Htr Hr Ha];
    clear R.
  6:{ (* forwarded *)
      split; [|split; [|split]].
      - split; intros _; cbn; eauto 10.
      - intros _. split; [reflexivity|]. split; [|split; reflexivity].
        eexists [_; _; _; _]. split; reflexivity.
      - intros Hrej. exfalso.
        eapply settled_result_not_rejection; eauto.
      - intro Hn. exfalso. apply Hn. cbn. auto 10. }
  all: split; [|split; [|split]];
    [ split;
      [ intros (key' & sg' & body' & Hin); cbn in Hin;
        repeat (destruct Hin as [Hin|Hin]; try discriminate Hin); contradiction
      | intro Hin; cbn in Hin;
        repeat (destruct Hin as [Hin|Hin]; try discriminate Hin); contradiction ]
    | intro Hin; cbn in Hin;
      repeat (destruct Hin as [Hin|Hin]; try discriminate Hin); contradiction
    | intros _ Hin; cbn in Hin;
      repeat (destruct Hin as [Hin|Hin]; try discriminate Hin); contradiction
    | intros _; split; [reflexivity|]; split; [eexists; reflexivity|reflexivity] ].
Qed.

Lemma next_invoked_iff_verified_witness :
  let w1 := snd (lineBotMiddleware (JSString fixture_secret) idle) in
  let w2 := snd (handler (Ok fixture_key)
                   (request (Some validSignature) fixture_body) respond_200 w1) in
  In EvNext (new_events w1 w2)
  /\ count is_next (new_events w1 w2) = 1%nat
  /\ app w2 = 200%N.
Proof.
  cbv zeta.
  assert (In EvNext
            (new_events
               (snd (lineBotMiddleware (JSString fixture_secret) idle))
               (snd (handler (Ok fixture_key)
                       (request (Some validSignature) fixture_body) respond_200
                       (snd (lineBotMiddleware (JSString fixture_secret) idle))))))
    as Hin by (vm_compute; auto 10).
  split; [exact Hin|].
  destruct (proj1 (proj2 (next_invoked_iff_verified
                     N (Ok fixture_key)
                     (request (Some validSignature) fixture_body) respond_200
                     (snd (lineBotMiddleware (JSString fixture_secret) idle))))
              Hin) as (Hc & _ & _ & Ha).
  split; [exact Hc | exact Ha].
Defined.

(** C10.  When the header is present with the empty string as value, the
    interceptor rejects with 401 "no signature", as for an absent header:
    the header lookup is the only call made (the body is not read,
    [validateSignature] is not called), and the downstream state is
    untouched. *)
Theorem empty_signature_header_rejected
    (App : Type) (p : Promise CryptoKey) (c : HonoRequest) (next : Next App)
    (w : World App) :
  header c signature_header = Some EmptyString ->
  handler p c next w
  = (Throw (HTTPException 401 "no signature"),
     {| events := (events w ++ [EvHeader signature_header])%list; app := app w |})
  /\ new_events w (snd (handler p c next w)) = [EvHeader signature_header]
  /\ count is_array_buffer (new_events w (snd (handler p c next w))) = 0%nat
  /\ count is_decode (new_events w (snd (handler p c next w))) = 0%nat
  /\ count is_verify (new_events w (snd (handler p c next w))) = 0%nat.
Proof.
  intro Hh.
  assert (handler p c next w
          = (Throw (HTTPException 401 "no signature"),
             {| events := (events w ++ [EvHeader signature_header])%list;
                app := app w |})) as E.
  { unfold handler, req_header, bind, emit, ret, throw. cbn [events app].
    fold signature_header. rewrite Hh. reflexivity. }
  split; [exact E|].
  rewrite E. cbn [snd].
  rewrite (new_events_app w
             {| events := (events w ++ [EvHeader signature_header])%list;
                app := app w |}
             [EvHeader signature_header] eq_refl).
  repeat split.
Qed.

Lemma empty_signature_header_rejected_witness :
  header (request (Some EmptyString) fixture_body) signature_header = Some EmptyString
  /\ fst (handler (Ok fixture_key) (request (Some EmptyString) fixture_body)
            respond_200 idle)
     = Throw (HTTPException 401 "no signature").
Proof.
  assert (header (request (Some EmptyString) fixture_body) signature_header
          = Some EmptyString) as Hh by reflexivity.
  split; [exact Hh|].
  now rewrite (proj1 (empty_signature_header_rejected
                        N (Ok fixture_key) (request (Some EmptyString) fixture_body)
                        respond_200 idle Hh)).
Defined.

(** C7.  Constructing the interceptor starts the key derivation, once: the
    single call the construction makes is the key import, and the closure
    captures its outcome.  Serving requests, however many, derives no
    further key (one import in the whole log since construction began), and
    every verification uses the captured key, the key of the secret.  The
    outcome of the derivation depends on the secret only. *)
Theorem key_derived_once_at_construction
    (App : Type) (s : string) (w0 : World App)
    (rs : list (HonoRequest * Next App)) :
  let built := lineBotMiddleware (JSString s) w0 in
  let p := fst (importKeyFromChannelSecret s w0) in
  let served := serve (handler p) rs (snd built) in
  fst built = Ok (handler p)
  /\ new_events w0 (snd built) = [EvImportKey (TextEncoder_encode s)]
  /\ count is_import (new_events (snd built) (snd served)) = 0%nat
  /\ count is_import (new_events w0 (snd served)) = 1%nat
  /\ (forall key sg body b,
        In (EvVerify key sg body b) (new_events (snd built) (snd served)) ->
        p = Ok key /\ key_data key = TextEncoder_encode s)
  /\ (forall w0' : World App, fst (importKeyFromChannelSecret s w0') = p).
Proof.
  cbv zeta. rewrite lineBotMiddleware_string. cbn [fst snd].
  set (p := fst (importKeyFromChannelSecret s w0)).
  set (w1 := {| events := (events w0 ++ [EvImportKey (TextEncoder_encode s)])%list;
                app := app w0 |}).
  destruct (serve_events p rs w1) as (tr & E & C & V).
  assert (events w1 = (events w0 ++ [EvImportKey (TextEncoder_encode s)])%list)
    as E1 by reflexivity.
  rewrite (new_events_app w0 w1 _ E1), (new_events_app w1 _ _ E).
  assert (events (snd (serve (handler p) rs w1))
          = (events w0 ++ ([EvImportKey (TextEncoder_encode s)] ++ tr))%list) as E0
    by (rewrite E, E1; now rewrite <- app_assoc).
  rewrite (new_events_app w0 _ _ E0).
  repeat split.
  - exact C.
  - rewrite count_app, C. reflexivity.
  - eauto.
  - apply V in H. subst p. destruct s as [|a s]; [discriminate H|].
    cbn in H. inversion H. reflexivity.
  - intro w0'. subst p. destruct s as [|a s]; reflexivity.
Qed.

Lemma key_derived_once_at_construction_witness :
  let built := lineBotMiddleware (JSString fixture_secret) idle in
  let served := serve (handler (Ok fixture_key)) three_requests (snd built) in
  count is_import (events (snd served)) = 1%nat
  /\ count is_verify (events (snd served)) = 2%nat.
Proof.
  cbv zeta. split; [|vm_compute; reflexivity].
  exact (proj1 (proj2 (proj2 (proj2 (key_derived_once_at_construction
                  N fixture_secret idle three_requests))))).
Defined.

(** ** Further properties of the module *)

Section Further.

Context {App : Type}.
Implicit Types (w : World App) (c : HonoRequest) (next : Next App)
  (p : Promise CryptoKey) (tr : list Event) (v : JSValue).

Local Open Scope list_scope.

(** The closure a construction returns holds the outcome of the key
    derivation for its secret. *)
Lemma lineBotMiddleware_captures v w0 w1 (h : MiddlewareHandler App) :
  lineBotMiddleware v w0 = (Ok h, w1) ->
  exists s, v = JSString s /\ h = handler (fst (importKeyFromChannelSecret s w0)).
Proof.
  intro H. destruct (String.eqb_spec (typeof v) "string") as [E|E].
  - apply typeof_string in E. destruct E as [s ->].
    rewrite lineBotMiddleware_string in H. inversion H. eauto.
  - rewrite (lineBotMiddleware_not_string v w0 E) in H. discriminate.
Qed.

Lemma importKey_result (s : string) w (key : CryptoKey) :
  fst (importKeyFromChannelSecret s w) = Ok key ->
  s <> EmptyString /\ key_data key = TextEncoder_encode s.
Proof.
  destruct s as [|a s]; intro H; [discriminate H|].
  cbn in H. inversion H. split; [discriminate | reflexivity].
Qed.

Lemma not_falsy c (sgn : string) :
  header c signature_header = Some sgn -> sgn <> EmptyString ->
  falsy (header c signature_header) = true -> False.
Proof.
  intros Hh Hs Hf. rewrite Hh in Hf. apply falsy_some in Hs. congruence.
Qed.

Lemma encode_nonempty (bs : list byte) :
  bs <> [] -> Base64.encode bs <> EmptyString.
Proof.
  intro H. destruct bs as [|b0 [|b1 [|b2 r]]]; [congruence| | |];
    unfold Base64.encode; cbn [map Base64.encode_sextets app string_of_list_ascii];
    discriminate.
Qed.

Lemma sign_nonempty (b : list byte) (s : string) : sign b s <> EmptyString.
Proof.
  unfold sign. apply encode_nonempty. intro H.
  pose proof (mac_length (TextEncoder_encode s) b) as L. rewrite H in L.
  discriminate L.
Qed.

End Further.

(** X1.  An interceptor built by [lineBotMiddleware] forwards a request
    only if the request is signed: when [next] is invoked, the secret is a
    non-empty string, the header carries a non-empty value, the body was
    read, and the header value decodes to the HMAC-SHA256 digest of
    exactly these body bytes under the UTF-8 bytes of the secret. *)
Theorem forward_only_if_signed
    (App : Type) (v : JSValue) (w0 w1 : World App) (h : MiddlewareHandler App)
    (c : HonoRequest) (next : Next App) (w : World App) :
  lineBotMiddleware v w0 = (Ok h, w1) ->
  In EvNext (new_events w (snd (h c next w))) ->
  exists s sgn body,
    v = JSString s /\ s <> EmptyString
    /\ header c signature_header = Some sgn /\ sgn <> EmptyString
    /\ arrayBuffer c = Fulfilled body
    /\ Base64.forgiving_decode sgn = Some (HMAC.mac (TextEncoder_encode s) body).
Proof.
  intros Hb Hin.
  destruct (lineBotMiddleware_captures v w0 w1 h Hb) as (s & -> & ->).
  destruct (handler_runs (fst (importKeyFromChannelSecret s w0)) c next w)
    as (tr & E & R).
  rewrite (new_events_app _ _ _ E) in Hin.
  inversion R as [Hf Htr Hr Ha
                 | sgn reason Hh Hs Hbd Htr Hr Ha
                 | sgn body e Hh Hs Hbd Hp Htr Hr Ha
                 | sgn body key Hh Hs Hbd Hp Hd Htr Hr Ha
                 | sgn body key bytes Hh Hs Hbd Hp Hd Hne Htr Hr Ha
                 | sgn body key Hh Hs Hbd Hp Hd Htr Hr Ha];
    subst tr; cbn in Hin;
    repeat (destruct Hin as [Hin|Hin]; try discriminate Hin);
    try contradiction.
  destruct (importKey_result s w0 key Hp) as [Hne Hk].
  exists s, sgn, body. rewrite <- Hk. auto 10.
Qed.

Lemma forward_only_if_signed_witness :
  exists s sgn body,
    JSString fixture_secret = JSString s /\ s <> EmptyString
    /\ header (request (Some validSignature) fixture_body) signature_header = Some sgn
    /\ sgn <> EmptyString
    /\ arrayBuffer (request (Some validSignature) fixture_body) = Fulfilled body
    /\ Base64.forgiving_decode sgn = Some (HMAC.mac (TextEncoder_encode s) body).
Proof.
  refine (forward_only_if_signed N (JSString fixture_secret) idle
            (snd (lineBotMiddleware (JSString fixture_secret) idle))
            (handler (Ok fixture_key))
            (request (Some validSignature) fixture_body) respond_200 idle
            eq_refl _).
  vm_compute. auto 10.
Defined.

(** X2.  An interceptor built from a non-empty secret forwards every
    request whose header is the Base64 of the HMAC-SHA256 digest of its
    body under the secret: [next] is invoked, and the outcome and the
    downstream state are those of [next]. *)
Theorem signed_request_forwarded
    (App : Type) (s : string) (w0 w1 : World App) (h : MiddlewareHandler App)
    (c : HonoRequest) (body : list byte) (next : Next App) (w : World App) :
  lineBotMiddleware (JSString s) w0 = (Ok h, w1) ->
  s <> EmptyString ->
  header c signature_header = Some (sign body s) ->
  arrayBuffer c = Fulfilled body ->
  In EvNext (new_events w (snd (h c next w)))
  /\ fst (h c next w) = settled_result (fst (next (app w)))
  /\ app (snd (h c next w)) = snd (next (app w)).
Proof.
  intros Hb Hne Hh Hbd.
  destruct (lineBotMiddleware_captures _ w0 w1 h Hb) as (s' & Hs' & ->).
  inversion Hs'; subst s'.
  rewrite (importKey_nonempty s w0 Hne). cbn [fst].
  set (key := {| key_data := TextEncoder_encode s |}).
  destruct (handler_runs (Ok key) c next w) as (tr & E & R).
  rewrite (new_events_app _ _ _ E).
  assert (Base64.forgiving_decode (sign body s)
          = Some (HMAC.mac (key_data key) body)) as Hdec
    by (unfold sign; apply Base64Roundtrip.forgiving_decode_encode).
  pose proof (sign_nonempty body s) as Hsn.
  inversion R as [Hf Htr Hr Ha
                 | sgn reason Hh' Hs Hbd' Htr Hr Ha
                 | sgn body' e Hh' Hs Hbd' Hp Htr Hr Ha
                 | sgn body' key' Hh' Hs Hbd' Hp Hd Htr Hr Ha
                 | sgn body' key' bytes Hh' Hs Hbd' Hp Hd Hne' Htr Hr Ha
                 | sgn body' key' Hh' Hs Hbd' Hp Hd Htr Hr Ha].
  - exfalso. exact (not_falsy c _ Hh Hsn Hf).
  - congruence.
  - discriminate Hp.
  - exfalso. assert (sgn = sign body s) by congruence. subst sgn.
    assert (body' = body) by congruence. subst body'.
    inversion Hp; subst key'. congruence.
  - exfalso. assert (sgn = sign body s) by congruence. subst sgn.
    assert (body' = body) by congruence. subst body'.
    inversion Hp; subst key'. rewrite Hdec in Hd. inversion Hd. congruence.
  - split; [cbn; auto 10|]. split; reflexivity.
Qed.

Lemma signed_request_forwarded_witness :
  fixture_secret <> EmptyString
  /\ header (request (Some validSignature) fixture_body) signature_header
     = Some (sign fixture_body fixture_secret)
  /\ fst (handler (Ok fixture_key) (request (Some validSignature) fixture_body)
            respond_200 idle) = Ok tt.
Proof.
  assert (fixture_secret <> EmptyString) as Hs by discriminate.
  assert (header (request (Some validSignature) fixture_body) signature_header
          = Some (sign fixture_body fixture_secret)) as Hh
    by (vm_compute; reflexivity).
  split; [exact Hs|]. split; [exact Hh|].
  exact (proj1 (proj2 (signed_request_forwarded
           N fixture_secret idle
           (snd (lineBotMiddleware (JSString fixture_secret) idle))
           (handler (Ok fixture_key))
           (request (Some validSignature) fixture_body) fixture_body
           respond_200 idle eq_refl Hs Hh eq_refl))).
Defined.

(** X3.  An interceptor built from the empty secret never forwards: no
    request reaches [next] and the downstream state is never touched; a
    request with a signature and a readable body ends with the
    [DataError] of the key import. *)
Theorem empty_secret_never_forwards
    (App : Type) (w0 w1 : World App) (h : MiddlewareHandler App)
    (c : HonoRequest) (next : Next App) (w : World App) :
  lineBotMiddleware (JSString EmptyString) w0 = (Ok h, w1) ->
  ~ In EvNext (new_events w (snd (h c next w)))
  /\ app (snd (h c next w)) = app w
  /\ (forall sgn body,
        header c signature_header = Some sgn -> sgn <> EmptyString ->
        arrayBuffer c = Fulfilled body ->
        fst (h c next w) = Throw (DOMException "DataError")).
Proof.
  intro Hb.
  destruct (lineBotMiddleware_captures _ w0 w1 h Hb) as (s' & Hs' & ->).
  inversion Hs'; subst s'. rewrite importKey_empty. cbn [fst].
  destruct (handler_runs (Throw (DOMException "DataError")) c next w)
    as (tr & E & R).
  rewrite (new_events_app _ _ _ E).
  inversion R as [Hf Htr Hr Ha
                 | sgn reason Hh Hs Hbd Htr Hr Ha
                 | sgn body e Hh Hs Hbd Hp Htr Hr Ha
                 | sgn body key Hh Hs Hbd Hp Hd Htr Hr Ha
                 | sgn body key bytes Hh Hs Hbd Hp Hd Hne Htr Hr Ha
                 | sgn body key Hh Hs Hbd Hp Hd Htr Hr Ha];
    try discriminate Hp.
  - split; [|split; [reflexivity|]].
    + intro Hin. cbn in Hin.
      repeat (destruct Hin as [Hin|Hin]; try discriminate Hin); contradiction.
    + intros sgn body Hh Hs _. exfalso. exact (not_falsy c sgn Hh Hs Hf).
  - split; [|split; [reflexivity|]].
    + intro Hin. cbn in Hin.
      repeat (destruct Hin as [Hin|Hin]; try discriminate Hin); contradiction.
    + intros sgn' body _ _ Hbd'. congruence.
  - split; [|split; [reflexivity|]].
    + intro Hin. cbn in Hin.
      repeat (destruct Hin as [Hin|Hin]; try discriminate Hin); contradiction.
    + intros _ _ _ _ _. congruence.
Qed.

Lemma empty_secret_never_forwards_witness :
  fst (handler (Throw (DOMException "DataError"))
         (request (Some validSignature) fixture_body) respond_200 idle)
  = Throw (DOMException "DataError").
Proof.
  refine (proj2 (proj2 (empty_secret_never_forwards
            N idle (snd (lineBotMiddleware (JSString EmptyString) idle))
            (handler (Throw (DOMException "DataError")))
            (request (Some validSignature) fixture_body) respond_200 idle
            eq_refl))
            validSignature fixture_body eq_refl _ eq_refl).
  discriminate.
Defined.

(** X4.  When the body cannot be read, the failure of the read is the
    outcome of the interceptor, unchanged; the signature is neither decoded
    nor verified, [next] is not invoked and the downstream state is
    untouched. *)
Theorem body_failure_propagates
    (App : Type) (p : Promise CryptoKey) (c : HonoRequest) (next : Next App)
    (w : World App) (sgn reason : string) :
  header c signature_header = Some sgn -> sgn <> EmptyString ->
  arrayBuffer c = Rejected reason ->
  handler p c next w
  = (Throw (Foreign reason),
     {| events := (events w ++ [EvHeader signature_header; EvArrayBuffer])%list;
        app := app w |}).
Proof.
  intros Hh Hs Hbd.
  unfold handler, req_header, req_arrayBuffer, bind, emit, ret, throw.
  cbn [events app]. fold signature_header. rewrite Hh.
  apply falsy_some in Hs. rewrite Hs, Hbd. cbn [events app].
  now rewrite <- app_assoc.
Qed.

Lemma body_failure_propagates_witness :
  fst (handler (Ok fixture_key)
         {| header := header (request (Some validSignature) fixture_body);
            arrayBuffer := Rejected "stream error" |}
         respond_200 idle)
  = Throw (Foreign "stream error").
Proof.
  rewrite (body_failure_propagates N (Ok fixture_key)
             {| header := header (request (Some validSignature) fixture_body);
                arrayBuffer := Rejected "stream error" |}
             respond_200 idle validSignature "stream error" eq_refl);
    [reflexivity | discriminate | reflexivity].
Defined.

(** X5.  A signature header that the Base64 decoder refuses is not
    answered with a 401: once the body is read and the key is there, the
    interceptor ends with the decoder's [InvalidCharacterError], without
    verifying and without invoking [next]. *)
Theorem undecodable_signature_throws
    (App : Type) (key : CryptoKey) (c : HonoRequest) (next : Next App)
    (w : World App) (sgn : string) (body : list byte) :
  header c signature_header = Some sgn -> sgn <> EmptyString ->
  arrayBuffer c = Fulfilled body ->
  Base64.forgiving_decode sgn = None ->
  handler (Ok key) c next w
  = (Throw (DOMException "InvalidCharacterError"),
     {| events := (events w ++ [EvHeader signature_header; EvArrayBuffer;
                                EvDecodeBase64 sgn])%list;
        app := app w |}).
Proof.
  intros Hh Hs Hbd Hd.
  unfold handler, req_header, req_arrayBuffer, validateSignature, decodeBase64,
    await, bind, emit, ret, throw.
  cbn [events app]. fold signature_header. rewrite Hh.
  apply falsy_some in Hs. rewrite Hs, Hbd. cbn [events app]. rewrite Hd.
  now rewrite <- !app_assoc.
Qed.

Lemma undecodable_signature_throws_witness :
  Base64.forgiving_decode "!" = None
  /\ fst (handler (Ok fixture_key) (request (Some "!"%string) fixture_body)
            respond_200 idle)
     = Throw (DOMException "InvalidCharacterError").
Proof.
  assert (Base64.forgiving_decode "!" = None) as Hd by reflexivity.
  split; [exact Hd|].
  rewrite (undecodable_signature_throws N fixture_key
             (request (Some "!"%string) fixture_body) respond_200 idle
             "!" fixture_body eq_refl);
    [reflexivity | discriminate | reflexivity | exact Hd].
Defined.

(** X6.  No partial match: a signature that decodes to anything but
    thirty-two bytes is rejected with 401 "signature validation failed",
    whatever the key and the body, and [next] is not invoked. *)
Theorem wrong_length_signature_rejected
    (App : Type) (key : CryptoKey) (c : HonoRequest) (next : Next App)
    (w : World App) (sgn : string) (body bytes : list byte) :
  header c signature_header = Some sgn -> sgn <> EmptyString ->
  arrayBuffer c = Fulfilled body ->
  Base64.forgiving_decode sgn = Some bytes ->
  List.length bytes <> 32%nat ->
  fst (handler (Ok key) c next w)
  = Throw (HTTPException 401 "signature validation failed")
  /\ ~ In EvNext (new_events w (snd (handler (Ok key) c next w)))
  /\ app (snd (handler (Ok key) c next w)) = app w.
Proof.
  intros Hh Hs Hbd Hd Hlen.
  destruct (handler_runs (Ok key) c next w) as (tr & E & R).
  rewrite (new_events_app _ _ _ E).
  inversion R as [Hf Htr Hr Ha
                 | sgn' reason Hh' Hs' Hbd' Htr Hr Ha
                 | sgn' body' e Hh' Hs' Hbd' Hp Htr Hr Ha
                 | sgn' body' key' Hh' Hs' Hbd' Hp Hd' Htr Hr Ha
                 | sgn' body' key' bytes' Hh' Hs' Hbd' Hp Hd' Hne Htr Hr Ha
                 | sgn' body' key' Hh' Hs' Hbd' Hp Hd' Htr Hr Ha].
  - exfalso. exact (not_falsy c sgn Hh Hs Hf).
  - congruence.
  - discriminate Hp.
  - exfalso. assert (sgn' = sgn) by congruence. subst sgn'. congruence.
  - split; [reflexivity|]. split; [|reflexivity].
    intro Hin. cbn in Hin.
    repeat (destruct Hin as [Hin|Hin]; try discriminate Hin); contradiction.
  - exfalso. assert (sgn' = sgn) by congruence. subst sgn'.
    rewrite Hd in Hd'. inversion Hd'. subst bytes.
    apply Hlen. apply mac_length.
Qed.

Lemma wrong_length_signature_rejected_witness :
  Base64.forgiving_decode "Zm9vYg==" = Some (bytes_of_string "foob")
  /\ fst (handler (Ok fixture_key) (request (Some "Zm9vYg=="%string) fixture_body)
            respond_200 idle)
     = Throw (HTTPException 401 "signature validation failed").
Proof.
  assert (Base64.forgiving_decode "Zm9vYg==" = Some (bytes_of_string "foob")) as Hd
    by reflexivity.
  split; [exact Hd|].
  refine (proj1 (wrong_length_signature_rejected N fixture_key
            (request (Some "Zm9vYg=="%string) fixture_body) respond_200 idle
            "Zm9vYg==" fixture_body (bytes_of_string "foob")
            eq_refl _ eq_refl Hd _)); discriminate.
Defined.


(** X8.  What a run verifies is what the request carries: every
    verification is made under the captured key, on exactly the bytes the
    body read returned, against the bytes the header value decodes to; its
    answer is whether these are the HMAC-SHA256 digest of the body. *)
Theorem verify_uses_raw_body_and_header
    (App : Type) (p : Promise CryptoKey) (c : HonoRequest) (next : Next App)
    (w : World App) (key : CryptoKey) (sg data : list byte) (b : bool) :
  In (EvVerify key sg data b) (new_events w (snd (handler p c next w))) ->
  p = Ok key
  /\ arrayBuffer c = Fulfilled data
  /\ (exists sgn, header c signature_header = Some sgn
                  /\ Base64.forgiving_decode sgn = Some sg)
  /\ (b = true <-> HMAC.mac (key_data key) data = sg).
Proof.
  intro Hin.
  destruct (handler_runs p c next w) as (tr & E & R).
  rewrite (new_events_app _ _ _ E) in Hin.
  inversion R as [Hf Htr Hr Ha
                 | sgn reason Hh Hs Hbd Htr Hr Ha
                 | sgn body e Hh Hs Hbd Hp Htr Hr Ha
                 | sgn body key' Hh Hs Hbd Hp Hd Htr Hr Ha
                 | sgn body key' bytes Hh Hs Hbd Hp Hd Hne Htr Hr Ha
                 | sgn body key' Hh Hs Hbd Hp Hd Htr Hr Ha];
    subst tr; cbn in Hin;
    repeat (destruct Hin as [Hin|Hin]; try discriminate Hin);
    try contradiction; inversion Hin; subst.
  - repeat split; eauto; try discriminate; try congruence.
  - repeat split; eauto.
Qed.

Lemma verify_uses_raw_body_and_header_witness :
  arrayBuffer (request (Some invalidSignature) fixture_body) = Fulfilled fixture_body.
Proof.
  refine (proj1 (proj2 (verify_uses_raw_body_and_header N (Ok fixture_key)
            (request (Some invalidSignature) fixture_body) respond_200 idle
            fixture_key
            (match Base64.forgiving_decode invalidSignature with
             | Some bytes => bytes
             | None => []
             end)
            fixture_body false _))).
  vm_compute. auto 10.
Defined.

(** X9.  [importKeyFromChannelSecret] makes one key import, of the UTF-8
    bytes of the secret, and touches nothing else; it fulfils exactly when
    the secret is not empty, with a key holding these bytes, and rejects
    the empty secret with the platform's [DataError]. *)
Theorem importKey_fulfils_iff_nonempty
    (App : Type) (s : string) (w : World App) :
  ((exists key, fst (importKeyFromChannelSecret s w) = Ok key) <-> s <> EmptyString)
  /\ (forall key, fst (importKeyFromChannelSecret s w) = Ok key ->
                  key_data key = TextEncoder_encode s)
  /\ (s = EmptyString ->
      fst (importKeyFromChannelSecret s w) = Throw (DOMException "DataError"))
  /\ new_events w (snd (importKeyFromChannelSecret s w))
     = [EvImportKey (TextEncoder_encode s)]
  /\ app (snd (importKeyFromChannelSecret s w)) = app w.
Proof.
  split; [split|split; [|split; [|split]]].
  - intros [key Hk]. exact (proj1 (importKey_result s w key Hk)).
  - intro Hs. rewrite (importKey_nonempty s w Hs). eexists. reflexivity.
  - intros key Hk. exact (proj2 (importKey_result s w key Hk)).
  - intros ->. reflexivity.
  - apply new_events_app. destruct s; reflexivity.
  - destruct s; reflexivity.
Qed.

Lemma importKey_fulfils_iff_nonempty_witness :
  fixture_secret <> EmptyString
  /\ exists key, fst (importKeyFromChannelSecret fixture_secret idle) = Ok key.
Proof.
  assert (fixture_secret <> EmptyString) as Hs by discriminate.
  split; [exact Hs|].
  exact (proj2 (proj1 (importKey_fulfils_iff_nonempty N fixture_secret idle)) Hs).
Defined.

(** X10.  With a key and a readable body, a header value that is
    well-formed standard Base64 never ends in a decoder error: the request
    is rejected with 401 (as unsigned when the value is empty, as failing
    validation otherwise) or forwarded with the outcome of [next]. *)
Theorem wellformed_signature_outcome
    (App : Type) (key : CryptoKey) (c : HonoRequest) (next : Next App)
    (w : World App) (sgn : string) (body : list byte) :
  header c signature_header = Some sgn ->
  Base64.rfc4648_wellformed sgn = true ->
  arrayBuffer c = Fulfilled body ->
  (sgn = EmptyString
   /\ fst (handler (Ok key) c next w) = Throw (HTTPException 401 "no signature"))
  \/ (sgn <> EmptyString
      /\ fst (handler (Ok key) c next w)
         = Throw (HTTPException 401 "signature validation failed"))
  \/ (sgn <> EmptyString
      /\ In EvNext (new_events w (snd (handler (Ok key) c next w)))
      /\ fst (handler (Ok key) c next w) = settled_result (fst (next (app w)))).
Proof.
  intros Hh Hwf Hbd.
  destruct (Base64Wellformed.wellformed_decodes sgn Hwf) as [bytes Hd].
  destruct (handler_runs (Ok key) c next w) as (tr & E & R).
  rewrite (new_events_app _ _ _ E).
  inversion R as [Hf Htr Hr Ha
                 | sgn' reason Hh' Hs' Hbd' Htr Hr Ha
                 | sgn' body' e Hh' Hs' Hbd' Hp Htr Hr Ha
                 | sgn' body' key' Hh' Hs' Hbd' Hp Hd' Htr Hr Ha
                 | sgn' body' key' bytes' Hh' Hs' Hbd' Hp Hd' Hne Htr Hr Ha
                 | sgn' body' key' Hh' Hs' Hbd' Hp Hd' Htr Hr Ha].
  - left. split; [|reflexivity].
    rewrite Hh in Hf. cbn in Hf. now apply String.eqb_eq in Hf.
  - congruence.
  - discriminate Hp.
  - exfalso. assert (sgn' = sgn) by congruence. subst sgn'. congruence.
  - right. left. assert (sgn' = sgn) by congruence. subst sgn'. auto.
  - right. right. assert (sgn' = sgn) by congruence. subst sgn'.
    split; [assumption|]. split; [cbn; auto 10 | reflexivity].
Qed.

Lemma wellformed_signature_outcome_witness :
  Base64.rfc4648_wellformed invalidSignature = true
  /\ fst (handler (Ok fixture_key) (request (Some invalidSignature) fixture_body)
            respond_200 idle)
     = Throw (HTTPException 401 "signature validation failed").
Proof.
  assert (Base64.rfc4648_wellformed invalidSignature = true) as Hwf by reflexivity.
  split; [exact Hwf|].
  destruct (wellformed_signature_outcome N fixture_key
              (request (Some invalidSignature) fixture_body) respond_200 idle
              invalidSignature fixture_body eq_refl Hwf eq_refl)
    as [[He _] | [[_ Hr] | [_ [_ Hr]]]].
  - discriminate He.
  - exact Hr.
  - vm_compute. reflexivity.
Defined.

(** X11.  The two reasons name their causes.  An interceptor built from
    the secret [s] answers 401 "no signature" exactly when the header is
    absent or empty, and 401 "signature validation failed" exactly when the
    secret is not empty, the header is not empty, the body was read and the
    header value decodes to bytes that are not the HMAC-SHA256 digest of
    the body under the secret. *)
Theorem rejection_reasons_name_causes
    (App : Type) (s : string) (w0 w1 : World App) (h : MiddlewareHandler App)
    (c : HonoRequest) (next : Next App) (w : World App) :
  lineBotMiddleware (JSString s) w0 = (Ok h, w1) ->
  (fst (h c next w) = Throw (HTTPException 401 "no signature")
   <-> falsy (header c signature_header) = true)
  /\ (fst (h c next w) = Throw (HTTPException 401 "signature validation failed")
      <-> exists sgn body bytes,
            s <> EmptyString
            /\ header c signature_header = Some sgn /\ sgn <> EmptyString
            /\ arrayBuffer c = Fulfilled body
            /\ Base64.forgiving_decode sgn = Some bytes
            /\ HMAC.mac (TextEncoder_encode s) body <> bytes).
Proof.
  intro Hb.
  destruct (lineBotMiddleware_captures _ w0 w1 h Hb) as (s' & Hs' & ->).
  inversion Hs'; subst s'. clear Hs'.
  set (p := fst (importKeyFromChannelSecret s w0)).
  assert (forall e, p = Throw e -> e = DOMException "DataError") as Hpe.
  { intros e He. subst p. destruct s as [|a s].
    - rewrite importKey_empty in He. inversion He. reflexivity.
    - rewrite importKey_nonempty in He by discriminate. discriminate He. }
  assert (forall key, p = Ok key ->
            s <> EmptyString /\ key_data key = TextEncoder_encode s) as Hpk
    by (intros key Hk; exact (importKey_result s w0 key Hk)).
  destruct (handler_runs p c next w) as (tr & E & R). clear E.
  inversion R as [Hf Htr Hr Ha
                 | sgn reason Hh Hs Hbd Htr Hr Ha
                 | sgn body e Hh Hs Hbd Hp Htr Hr Ha
                 | sgn body key Hh Hs Hbd Hp Hd Htr Hr Ha
                 | sgn body key bytes Hh Hs Hbd Hp Hd Hne Htr Hr Ha
                 | sgn body key Hh Hs Hbd Hp Hd Htr Hr Ha];
    clear R.
  - split; [tauto|]. split; [discriminate|].
    intros (sgn & body & bytes & _ & Hh & Hs & _).
    exfalso. exact (not_falsy c sgn Hh Hs Hf).
  - split; split; try discriminate.
    + intro Hf. exfalso. exact (not_falsy c sgn Hh Hs Hf).
    + intros (sgn' & body & bytes & _ & _ & _ & Hbd' & _). congruence.
  - rewrite (Hpe e Hp). split; split; try discriminate.
    + intro Hf. exfalso. exact (not_falsy c sgn Hh Hs Hf).
    + intros (sgn' & body' & bytes & Hne & _).
      exfalso. subst p. rewrite (importKey_nonempty s w0 Hne) in Hp.
      discriminate Hp.
  - split; split; try discriminate.
    + intro Hf. exfalso. exact (not_falsy c sgn Hh Hs Hf).
    + intros (sgn' & body' & bytes & _ & Hh' & _ & _ & Hd' & _). congruence.
  - destruct (Hpk key Hp) as [Hne' Hk].
    split; split; try discriminate.
    + intro Hf. exfalso. exact (not_falsy c sgn Hh Hs Hf).
    + intros _. exists sgn, body, bytes. rewrite <- Hk. auto 10.
    + reflexivity.
  - destruct (Hpk key Hp) as [Hne' Hk].
    assert (forall st msg, settled_result (fst (next (app w)))
                           <> Throw (HTTPException st msg)) as Hnot.
    { intros st msg H. eapply settled_result_not_rejection.
      exists st, msg. exact H. }
    split; split.
    + intro H. exfalso. exact (Hnot _ _ H).
    + intro Hf. exfalso. exact (not_falsy c sgn Hh Hs Hf).
    + intro H. exfalso. exact (Hnot _ _ H).
    + intros (sgn' & body' & bytes & _ & Hh' & _ & Hbd' & Hd' & Hne).
      exfalso. assert (sgn' = sgn) by congruence. subst sgn'.
      assert (body' = body) by congruence. subst body'.
      rewrite Hd in Hd'. inversion Hd'. subst bytes. rewrite <- Hk in Hne.
      congruence.
Qed.

Lemma rejection_reasons_name_causes_witness :
  falsy (header (request None fixture_body) signature_header) = true
  /\ fst (handler (Ok fixture_key) (request None fixture_body) respond_200 idle)
     = Throw (HTTPException 401 "no signature").
Proof.
  assert (falsy (header (request None fixture_body) signature_header) = true)
    as Hf by reflexivity.
  split; [exact Hf|].
  exact (proj2 (proj1 (rejection_reasons_name_causes N fixture_secret idle
           (snd (lineBotMiddleware (JSString fixture_secret) idle))
           (handler (Ok fixture_key))
           (request None fixture_body) respond_200 idle eq_refl)) Hf).
Defined.
